(** * Poslyzer: relay layer, recording page and posture engine

    A shallow embedding of the Node relay (controllers/videoController.js,
    routes/videoRoutes.js), of the React recording page (pages/RecordPage)
    and, where the Python engine is not part of the sources, of the engine
    as the specification describes it. *)

From Stdlib Require Import ZArith QArith List String Bool Lia.
From stdpp Require Import gmap strings list pretty.
Import ListNotations.
Local Open Scope string_scope.
Set Warnings "-register-all".

(** ** JavaScript values *)

Module JS.

(** The values that travel through [response.data], [res.json] and the
    React state: JSON plus [undefined]. An object keeps its properties in
    insertion order. *)
Inductive value : Type :=
| Undefined
| Null
| Bool (b : bool)
| Num (q : Q)
| Str (s : string)
| Arr (items : list value)
| Obj (props : list (string * value)).

(** ToBoolean. *)
Definition truthy (v : value) : bool :=
  match v with
  | Undefined | Null => false
  | Bool b => b
  | Num q => negb (Qeq_bool q 0)
  | Str s => negb (String.eqb s "")
  | Arr _ | Obj _ => true
  end.

(** [a || b]. *)
Definition or (a b : value) : value := if truthy a then a else b.

Fixpoint assoc (k : string) (props : list (string * value)) : value :=
  match props with
  | [] => Undefined
  | (k', v) :: rest => if String.eqb k k' then v else assoc k rest
  end.

(** [o.k] on a value that is known to be neither [undefined] nor
    [null]: a missing property reads as [undefined]. *)
Definition get (o : value) (k : string) : value :=
  match o with
  | Obj props => assoc k props
  | _ => Undefined
  end.


(** ToString, over a printer for numbers. An array prints its items
    separated by commas, with [null] and [undefined] items left empty. *)
Fixpoint to_string (show : Q -> string) (v : value) : string :=
  match v with
  | Undefined => "undefined"
  | Null => "null"
  | Bool true => "true"
  | Bool false => "false"
  | Num q => show q
  | Str s => s
  | Arr items =>
      (fix go (l : list value) : string :=
         match l with
         | [] => ""
         | x :: rest =>
             let sx := match x with
                       | Undefined | Null => ""
                       | _ => to_string show x
                       end in
             match rest with
             | [] => sx
             | _ :: _ => sx ++ "," ++ go rest
             end
         end) items
  | Obj _ => "[object Object]"
  end.

(** [items.join(sep)]. *)
Fixpoint join (show : Q -> string) (sep : string) (items : list value) : string :=
  match items with
  | [] => ""
  | x :: rest =>
      let sx := match x with
                | Undefined | Null => ""
                | _ => to_string show x
                end in
      match rest with
      | [] => sx
      | _ :: _ => sx ++ sep ++ join show sep rest
      end
  end.

(** The classes of the exceptions the relay can see. *)
Inductive error_class := TypeError | AxiosError | SystemError.

Record error := { class : error_class; message : string }.

(** Reading property [p] of [undefined]. *)
Definition undefined_property (p : string) : error :=
  {| class := TypeError;
     message := "Cannot read properties of undefined (reading '" ++ p ++ "')" |}.

(** [v + suffix] for an environment variable [v], which is a string or
    [undefined]. *)
Definition env_concat (v : option string) (suffix : string) : string :=
  match v with
  | Some s => s ++ suffix
  | None => "undefined" ++ suffix
  end.

(** [o.k] on any value: reading a property of [undefined] or [null]
    throws. *)
Definition get_prop (o : value) (k : string) : error + value :=
  match o with
  | Undefined => inl (undefined_property k)
  | Null =>
      inl {| class := TypeError;
             message := "Cannot read properties of null (reading '" ++ k ++ "')" |}
  | _ => inr (get o k)
  end.

End JS.

(** ** Effects: the upload directory and exceptions *)

Module Eff.

(** The files on the relay's disk, by path. *)
Abbreviation FS := (gset string).

Inductive completion (A : Type) : Type :=
| Normal (a : A)
| Abrupt (e : JS.error).
Arguments Normal {A} a.
Arguments Abrupt {A} e.

(** A computation reads and writes the disk and may throw; the disk keeps
    what was written before the throw. *)
Definition M (A : Type) : Type := FS -> completion A * FS.

Definition ret {A} (a : A) : M A := fun fs => (Normal a, fs).
Definition throw {A} (e : JS.error) : M A := fun fs => (Abrupt e, fs).

Definition bind {A B} (c : M A) (k : A -> M B) : M B :=
  fun fs =>
    match c fs with
    | (Normal a, fs') => k a fs'
    | (Abrupt e, fs') => (Abrupt e, fs')
    end.

(** [try { body } catch (error) { handler }]. *)
Definition try_catch {A} (body : M A) (handler : JS.error -> M A) : M A :=
  fun fs =>
    match body fs with
    | (Normal a, fs') => (Normal a, fs')
    | (Abrupt e, fs') => handler e fs'
    end.

(** [fs.unlinkSync(path)]. *)
Definition unlinkSync (path : string) : M unit :=
  fun fs =>
    if decide (path ∈ fs) then (Normal tt, fs ∖ {[path]})
    else (Abrupt {| JS.class := JS.SystemError;
                    JS.message := "ENOENT: no such file or directory, unlink '"
                                    ++ path ++ "'" |}, fs).

End Eff.

Notation "'let!' x ':=' c 'in' k" := (Eff.bind c (fun x => k))
  (at level 10, x name, c at level 100, k at level 200).
Notation "'do!' c 'in' k" := (Eff.bind c (fun _ => k))
  (at level 10, c at level 100, k at level 200).

(** ** The multipart parser of the routes (multer) *)

Module Multer.

(** The routes parse their multipart bodies with the npm package multer,
    a dependency of the relay; this module follows its documented behaviour
    for [single(fieldname)].

    A file part of a multipart body, and the body: its file parts in the
    order sent, and its text fields. *)
Record part := { fieldname : string; filename : string; content : list Byte.byte }.

Record multipart := { files : list part; fields : gmap string string }.

Inductive MulterError := LIMIT_UNEXPECTED_FILE (field : string).

Definition message (e : MulterError) : string :=
  match e with LIMIT_UNEXPECTED_FILE _ => "Unexpected field" end.

(** The file filter that [multer] wraps around every storage: a part
    without a file name is skipped; a file is accepted while its field
    still has [filesLeft] files to take, and any other file aborts the
    request with [LIMIT_UNEXPECTED_FILE]. [name] is the one field that
    [single(name)] declares. *)
Fixpoint accept (name : string) (filesLeft : nat) (ps : list part)
  : MulterError + list part :=
  match ps with
  | [] => inr []
  | p :: rest =>
      if String.eqb (filename p) "" then accept name filesLeft rest
      else if String.eqb (fieldname p) name then
        match filesLeft with
        | O => inl (LIMIT_UNEXPECTED_FILE (fieldname p))
        | S n =>
            match accept name n rest with
            | inl e => inl e
            | inr fs => inr (p :: fs)
            end
        end
      else inl (LIMIT_UNEXPECTED_FILE (fieldname p))
  end.

(** [single(name)]: at most one file, of field [name]; [req.file] is that
    file, or stays [undefined] when the body has none. *)
Definition single (name : string) (ps : list part) : MulterError + option part :=
  match accept name 1 ps with
  | inl e => inl e
  | inr fs => inr (head fs)
  end.

End Multer.

(** ** The relay: controllers and routes *)

Module Relay.
Import JS Eff.

Record response := { status : nat; body : JS.value }.

(** [req] after multer: [req.file] and the text fields [req.body]. The
    file is a disk file ([path]) or a memory file ([buffer]) by the
    storage of the route. *)
Record disk_file := { path : string }.
Record memory_file := { buffer : list Byte.byte }.
Record request (F : Type) := { file : option F; req_body : gmap string string }.
Arguments file {F} r.
Arguments req_body {F} r.

(** [req.body.k]. *)
Definition field (b : gmap string string) (k : string) : JS.value :=
  match b !! k with
  | Some s => Str s
  | None => Undefined
  end.

(** What [form.append] takes. *)
Inductive form_value :=
| FValue (v : JS.value)
| FStream (path : string)
| FBuffer (data : list Byte.byte) (filename contentType : string).

Abbreviation form := (list (string * form_value)).

(** How a POST to the engine ends: an HTTP response, or no response. *)
Inductive http_outcome :=
| Responded (code : nat) (data : JS.value)
| Unreachable (message : string).

(** The form that [analyzeUploadedVideo] builds: the stream of the upload
    and [req.body.mode || 'squat']. *)
Definition video_form (filePath : string) (b : gmap string string) : form :=
  [("video", FStream filePath);
   ("mode", FValue (JS.or (field b "mode") (Str "squat")))].

(** The form that [analyzeSingleFrame] builds. *)
Definition frame_form (imageBuffer : list Byte.byte) (b : gmap string string) : form :=
  let mode := JS.or (field b "mode") (Str "squat") in
  [("image", FBuffer imageBuffer "frame.jpg" "image/jpeg");
   ("mode", FValue mode)].

Fixpoint form_get (k : string) (f : form) : option form_value :=
  match f with
  | [] => None
  | (k', v) :: rest => if String.eqb k k' then Some v else form_get k rest
  end.

(** The engine answered, with a 2xx code. *)
Definition engine_ok (o : http_outcome) : bool :=
  match o with
  | Responded code _ => bool_decide (200 <= code < 300)%nat
  | Unreachable _ => false
  end.

Definition failure (error : JS.error) : response :=
  {| status := 500;
     body := Obj [("success", Bool false); ("error", Str (message error))] |}.

(** The rejection of [axios.post] for an outcome that is not a 2xx
    response. *)
Definition axios_error (o : http_outcome) : JS.error :=
  match o with
  | Responded code _ =>
      {| class := AxiosError;
         message := "Request failed with status code " ++ pretty code |}
  | Unreachable msg => {| class := AxiosError; message := msg |}
  end.

Section Controllers.

(** The engine behind the relay, and the relay's environment. *)
Variable flask : string -> form -> http_outcome.
Variable PYTHON_URL : option string.

(** [axios.post(url, form, ...)]: resolves with the response on a 2xx
    code and rejects otherwise. *)
Definition axios_post (url : string) (f : form) : M JS.value :=
  match flask url f with
  | Responded code data =>
      if bool_decide (200 <= code < 300)%nat then ret data
      else throw (axios_error (Responded code data))
  | Unreachable msg => throw (axios_error (Unreachable msg))
  end.

(** [req.file.p]: throws when [req.file] is [undefined]. *)
Definition file_of {F} (req : request F) (p : string) : M F :=
  match file req with
  | Some f => ret f
  | None => throw (undefined_property p)
  end.

(** For full video file upload (handled by multer). *)
Definition analyzeUploadedVideo (req : request disk_file) : M response :=
  try_catch
    (let! f := file_of req "path" in
     let filePath := path f in
     let pythonURL := PYTHON_URL in
     let form := video_form filePath (req_body req) in
     let! data := axios_post (env_concat pythonURL "/analyze") form in
     do! unlinkSync filePath in
     ret {| status := 200;
            body := Obj [("success", Bool true); ("flaskResponse", data)] |})
    (fun error => ret (failure error)).

(** For frame-by-frame analysis (real-time webcam or previewed video). *)
Definition analyzeSingleFrame (req : request memory_file) : M response :=
  try_catch
    (let! f := file_of req "buffer" in
     let imageBuffer := buffer f in
     let form := frame_form imageBuffer (req_body req) in
     let! data := axios_post "http://127.0.0.1:5001/frame" form in
     ret {| status := 200;
            body := Obj [("success", Bool true); ("feedback", data)] |})
    (fun error => ret (failure error)).

(** The router's error middleware: a [MulterError] is answered 400. *)
Definition multerErrorHandler (error : Multer.MulterError) : response :=
  {| status := 400; body := Obj [("error", Str (Multer.message error))] |}.

(** Disk storage [multer({ dest })]: an accepted file is written under
    [dest] with a generated name [fresh]; a request that multer aborts
    leaves no file behind. *)
Definition disk_single (dest name fresh : string) (mp : Multer.multipart)
  : M (Multer.MulterError + request disk_file) :=
  fun fs =>
    match Multer.single name (Multer.files mp) with
    | inl e => (Normal (inl e), fs)
    | inr None =>
        (Normal (inr {| file := None; req_body := Multer.fields mp |}), fs)
    | inr (Some _) =>
        (Normal (inr {| file := Some {| path := dest ++ fresh |};
                        req_body := Multer.fields mp |}),
         fs ∪ {[dest ++ fresh]})
    end.

(** Memory storage [multer({ storage: multer.memoryStorage() })]. *)
Definition memory_single (name : string) (mp : Multer.multipart)
  : Multer.MulterError + request memory_file :=
  match Multer.single name (Multer.files mp) with
  | inl e => inl e
  | inr p =>
      inr {| file := (fun p => {| buffer := Multer.content p |}) <$> p;
             req_body := Multer.fields mp |}
  end.

(** [router.post('/analyze', uploadVideo.single('video'), analyzeUploadedVideo)] *)
Definition post_analyze (fresh : string) (mp : Multer.multipart) : M response :=
  let! r := disk_single "uploads/" "video" fresh mp in
  match r with
  | inl e => ret (multerErrorHandler e)
  | inr req => analyzeUploadedVideo req
  end.

(** [router.post('/frame', uploadFrame.single('image'), analyzeSingleFrame)] *)
Definition post_frame (mp : Multer.multipart) : M response :=
  match memory_single "image" mp with
  | inl e => ret (multerErrorHandler e)
  | inr req => analyzeSingleFrame req
  end.

(** The handler shared, up to the address it posts to, by the routes
    [/analyze-squat] and [/analyze-sit]. *)
Definition analyze_exercise (endpoint : string) (req : request disk_file) : M response :=
  try_catch
    (let! imagePath :=
       match file req with
       | Some f => ret (inr (path f))
       | None =>
           match req_body req !! "imagePath" with
           | Some p => if String.eqb p "" then ret (inl tt) else ret (inr p)
           | None => ret (inl tt)
           end
       end in
     match imagePath with
     | inl _ =>
         ret {| status := 400; body := Obj [("error", Str "No image provided")] |}
     | inr imagePath =>
         let form := [("frame", FStream imagePath)] in
         let! data := axios_post endpoint form in
         do! match file req with
             | Some _ => unlinkSync imagePath
             | None => ret tt
             end in
         ret {| status := 200; body := data |}
     end)
    (fun error =>
       do! match file req with
           | Some f => unlinkSync (path f)
           | None => ret tt
           end in
       ret {| status := 500; body := Obj [("error", Str (message error))] |}).

(** The handlers of [router.post('/analyze-squat', uploadExercise.single('frame'), ...)]
    and [router.post('/analyze-sit', uploadExercise.single('frame'), ...)]. *)
Definition analyze_squat : request disk_file -> M response :=
  analyze_exercise "http://localhost:5001/analyze/squat".

Definition analyze_sit : request disk_file -> M response :=
  analyze_exercise "http://localhost:5001/analyze/sit".

Definition post_analyze_squat (fresh : string) (mp : Multer.multipart) : M response :=
  let! r := disk_single "temp/" "frame" fresh mp in
  match r with
  | inl e => ret (multerErrorHandler e)
  | inr req => analyze_squat req
  end.

Definition post_analyze_sit (fresh : string) (mp : Multer.multipart) : M response :=
  let! r := disk_single "temp/" "frame" fresh mp in
  match r with
  | inl e => ret (multerErrorHandler e)
  | inr req => analyze_sit req
  end.

End Controllers.

End Relay.

(** ** The recording page *)

Module Page.
Import JS.

(** The object held in [liveFeedback]. *)
Record live_feedback :=
  { fb_status : JS.value; fb_details : JS.value; fb_score : JS.value }.

(** What [formData.append] takes, and a request the page sends. *)
Inductive part :=
| Blob (data : list Byte.byte)
| File (name : string) (data : list Byte.byte)
| Text (s : string).

Record http_request := { url : string; form : list (string * part) }.

(** The React state of [RecordPage], the interval held in
    [frameAnalysisInterval] (its period, while one is set), and the
    network: the requests sent so far, oldest first, and the number of frame
    requests whose response has not arrived. *)
Record state := {
  activeTab : string;
  recordingMode : string;
  isAnalyzing : bool;
  liveFeedback : option live_feedback;
  analysisResults : JS.value;
  uploadedVideoURL : option string;
  isRecording : bool;
  liveVideoStream : option nat;
  isLiveAnalysisActive : bool;
  feedback : JS.value;
  frameAnalysisInterval : option nat;
  sent : list http_request;
  in_flight : nat
}.

Definition initial : state :=
  {| activeTab := "webcam"; recordingMode := "squat"; isAnalyzing := false;
     liveFeedback := None; analysisResults := Null; uploadedVideoURL := None;
     isRecording := false; liveVideoStream := None;
     isLiveAnalysisActive := false; feedback := Arr [];
     frameAnalysisInterval := None; sent := []; in_flight := 0 |}.

Definition setActiveTab (v : string) (s : state) : state :=
  {| activeTab := v; recordingMode := recordingMode s;
     isAnalyzing := isAnalyzing s; liveFeedback := liveFeedback s;
     analysisResults := analysisResults s;
     uploadedVideoURL := uploadedVideoURL s; isRecording := isRecording s;
     liveVideoStream := liveVideoStream s;
     isLiveAnalysisActive := isLiveAnalysisActive s; feedback := feedback s;
     frameAnalysisInterval := frameAnalysisInterval s; sent := sent s;
     in_flight := in_flight s |}.

Definition setRecordingMode (v : string) (s : state) : state :=
  {| activeTab := activeTab s; recordingMode := v;
     isAnalyzing := isAnalyzing s; liveFeedback := liveFeedback s;
     analysisResults := analysisResults s;
     uploadedVideoURL := uploadedVideoURL s; isRecording := isRecording s;
     liveVideoStream := liveVideoStream s;
     isLiveAnalysisActive := isLiveAnalysisActive s; feedback := feedback s;
     frameAnalysisInterval := frameAnalysisInterval s; sent := sent s;
     in_flight := in_flight s |}.

Definition setIsAnalyzing (v : bool) (s : state) : state :=
  {| activeTab := activeTab s; recordingMode := recordingMode s;
     isAnalyzing := v; liveFeedback := liveFeedback s;
     analysisResults := analysisResults s;
     uploadedVideoURL := uploadedVideoURL s; isRecording := isRecording s;
     liveVideoStream := liveVideoStream s;
     isLiveAnalysisActive := isLiveAnalysisActive s; feedback := feedback s;
     frameAnalysisInterval := frameAnalysisInterval s; sent := sent s;
     in_flight := in_flight s |}.

Definition setLiveFeedback (v : option live_feedback) (s : state) : state :=
  {| activeTab := activeTab s; recordingMode := recordingMode s;
     isAnalyzing := isAnalyzing s; liveFeedback := v;
     analysisResults := analysisResults s;
     uploadedVideoURL := uploadedVideoURL s; isRecording := isRecording s;
     liveVideoStream := liveVideoStream s;
     isLiveAnalysisActive := isLiveAnalysisActive s; feedback := feedback s;
     frameAnalysisInterval := frameAnalysisInterval s; sent := sent s;
     in_flight := in_flight s |}.

Definition setAnalysisResults (v : JS.value) (s : state) : state :=
  {| activeTab := activeTab s; recordingMode := recordingMode s;
     isAnalyzing := isAnalyzing s; liveFeedback := liveFeedback s;
     analysisResults := v;
     uploadedVideoURL := uploadedVideoURL s; isRecording := isRecording s;
     liveVideoStream := liveVideoStream s;
     isLiveAnalysisActive := isLiveAnalysisActive s; feedback := feedback s;
     frameAnalysisInterval := frameAnalysisInterval s; sent := sent s;
     in_flight := in_flight s |}.

Definition setUploadedVideoURL (v : option string) (s : state) : state :=
  {| activeTab := activeTab s; recordingMode := recordingMode s;
     isAnalyzing := isAnalyzing s; liveFeedback := liveFeedback s;
     analysisResults := analysisResults s;
     uploadedVideoURL := v; isRecording := isRecording s;
     liveVideoStream := liveVideoStream s;
     isLiveAnalysisActive := isLiveAnalysisActive s; feedback := feedback s;
     frameAnalysisInterval := frameAnalysisInterval s; sent := sent s;
     in_flight := in_flight s |}.

Definition setIsRecording (v : bool) (s : state) : state :=
  {| activeTab := activeTab s; recordingMode := recordingMode s;
     isAnalyzing := isAnalyzing s; liveFeedback := liveFeedback s;
     analysisResults := analysisResults s;
     uploadedVideoURL := uploadedVideoURL s; isRecording := v;
     liveVideoStream := liveVideoStream s;
     isLiveAnalysisActive := isLiveAnalysisActive s; feedback := feedback s;
     frameAnalysisInterval := frameAnalysisInterval s; sent := sent s;
     in_flight := in_flight s |}.

Definition setLiveVideoStream (v : option nat) (s : state) : state :=
  {| activeTab := activeTab s; recordingMode := recordingMode s;
     isAnalyzing := isAnalyzing s; liveFeedback := liveFeedback s;
     analysisResults := analysisResults s;
     uploadedVideoURL := uploadedVideoURL s; isRecording := isRecording s;
     liveVideoStream := v;
     isLiveAnalysisActive := isLiveAnalysisActive s; feedback := feedback s;
     frameAnalysisInterval := frameAnalysisInterval s; sent := sent s;
     in_flight := in_flight s |}.

Definition setIsLiveAnalysisActive (v : bool) (s : state) : state :=
  {| activeTab := activeTab s; recordingMode := recordingMode s;
     isAnalyzing := isAnalyzing s; liveFeedback := liveFeedback s;
     analysisResults := analysisResults s;
     uploadedVideoURL := uploadedVideoURL s; isRecording := isRecording s;
     liveVideoStream := liveVideoStream s;
     isLiveAnalysisActive := v; feedback := feedback s;
     frameAnalysisInterval := frameAnalysisInterval s; sent := sent s;
     in_flight := in_flight s |}.

Definition setFeedback (v : JS.value) (s : state) : state :=
  {| activeTab := activeTab s; recordingMode := recordingMode s;
     isAnalyzing := isAnalyzing s; liveFeedback := liveFeedback s;
     analysisResults := analysisResults s;
     uploadedVideoURL := uploadedVideoURL s; isRecording := isRecording s;
     liveVideoStream := liveVideoStream s;
     isLiveAnalysisActive := isLiveAnalysisActive s; feedback := v;
     frameAnalysisInterval := frameAnalysisInterval s; sent := sent s;
     in_flight := in_flight s |}.

Definition set_interval (v : option nat) (s : state) : state :=
  {| activeTab := activeTab s; recordingMode := recordingMode s;
     isAnalyzing := isAnalyzing s; liveFeedback := liveFeedback s;
     analysisResults := analysisResults s;
     uploadedVideoURL := uploadedVideoURL s; isRecording := isRecording s;
     liveVideoStream := liveVideoStream s;
     isLiveAnalysisActive := isLiveAnalysisActive s; feedback := feedback s;
     frameAnalysisInterval := v; sent := sent s;
     in_flight := in_flight s |}.

(** A request leaves the page. *)
Definition send (r : http_request) (frame : bool) (s : state) : state :=
  {| activeTab := activeTab s; recordingMode := recordingMode s;
     isAnalyzing := isAnalyzing s; liveFeedback := liveFeedback s;
     analysisResults := analysisResults s;
     uploadedVideoURL := uploadedVideoURL s; isRecording := isRecording s;
     liveVideoStream := liveVideoStream s;
     isLiveAnalysisActive := isLiveAnalysisActive s; feedback := feedback s;
     frameAnalysisInterval := frameAnalysisInterval s;
     sent := sent s ++ [r];
     in_flight := if frame then S (in_flight s) else in_flight s |}.

(** The response to a frame request arrives. *)
Definition settle (s : state) : state :=
  {| activeTab := activeTab s; recordingMode := recordingMode s;
     isAnalyzing := isAnalyzing s; liveFeedback := liveFeedback s;
     analysisResults := analysisResults s;
     uploadedVideoURL := uploadedVideoURL s; isRecording := isRecording s;
     liveVideoStream := liveVideoStream s;
     isLiveAnalysisActive := isLiveAnalysisActive s; feedback := feedback s;
     frameAnalysisInterval := frameAnalysisInterval s; sent := sent s;
     in_flight := pred (in_flight s) |}.

Definition defined {A} (o : option A) : bool :=
  match o with Some _ => true | None => false end.

(** How the awaited [axios.post] of a frame and the awaited [fetch] of a
    video end. A rejection of axios carries [err.response.data] when the
    server answered, and [err.message]. *)
Inductive axios_settled :=
| Fulfilled (data : JS.value)
| Rejected (response_data : option JS.value) (message : string).

Inductive fetch_settled :=
| Fetched (ok : bool) (json : JS.error + JS.value)
| FetchFailed (message : string).

(** What happens to the page: the clicks it offers, the timer, and the
    arrival of responses. *)
Inductive event :=
| ClickSquat
| ClickSitting
| ClickWebcamTab
| ClickUploadTab
| ClickStartStop (granted : option nat)
| ClickToggleLive
| ClickRemoveVideo
| Tick (ready : bool) (blob : option (list Byte.byte))
| FrameSettled (r : axios_settled)
| SelectVideo (name : string) (data : list Byte.byte) (localURL : string)
| UploadSettled (r : fetch_settled).

Section Component.

Variable VITE_BACKEND_URL : option string.

(** How a number prints. *)
Variable show : Q -> string.

(** The period given to [setInterval]. *)
Definition POLL_MS : nat := 600.

(** The [<video>] element is rendered, so [videoRef.current] is set. *)
Definition video_mounted (s : state) : bool :=
  (String.eqb (activeTab s) "webcam" && defined (liveVideoStream s))
  || defined (uploadedVideoURL s).

Definition frame_request (mode : string) (blob : list Byte.byte) : http_request :=
  {| url := env_concat VITE_BACKEND_URL "/api/video/frame";
     form := [("frame", Blob blob); ("mode", Text mode)] |}.

Definition video_request (mode name : string) (data : list Byte.byte) : http_request :=
  {| url := "http://localhost:5001/api/video/analyze";
     form := [("video", File name data); ("mode", Text mode)] |}.

(** The callback of [setInterval]. *)
Definition tick (ready : bool) (blob : option (list Byte.byte)) (s : state) : state :=
  match frameAnalysisInterval s with
  | None => s
  | Some _ =>
      if video_mounted s && ready then
        match blob with
        | None => s
        | Some b => send (frame_request (recordingMode s) b) true s
        end
      else s
  end.

(** The [try] branch after the awaited post: the feedback object and the
    value for [setFeedback]. Reading [res.data.status] throws when
    [res.data] is [null] or [undefined]. *)
Definition live_success (data : JS.value) : JS.error + (live_feedback * JS.value) :=
  match get_prop data "status" with
  | inl e => inl e
  | inr status =>
      inr ({| fb_status := JS.or status (Str "Analyzing...");
              fb_details := JS.or (JS.or (get data "feedback") (get data "details")) (Arr []);
              fb_score := JS.or (get data "score") Null |},
           JS.or (get data "feedback") (Arr []))
  end.

(** [errorMsg] of the [catch] branch; [None] when [details.join] is not a
    function and the branch itself throws. *)
Definition live_error_message (response_data : option JS.value) (message : string)
  : option JS.value :=
  let from_message :=
    if truthy (Str message) then Str message
    else Str "Unable to analyze current frame" in
  match response_data with
  | Some d =>
      if truthy d then
        if truthy (get d "error") then Some (get d "error")
        else if truthy (get d "details") then
          match get d "details" with
          | Arr items => Some (Str (join show ", " items))
          | _ => None
          end
        else Some (Str "Unable to analyze current frame")
      else Some from_message
  | None => Some from_message
  end.

Definition live_failure (response_data : option JS.value) (message : string)
  (s : state) : state :=
  match live_error_message response_data message with
  | Some errorMsg =>
      setLiveFeedback
        (Some {| fb_status := Str "Analysis Error";
                 fb_details := Arr [errorMsg];
                 fb_score := Null |}) s
  | None => s
  end.

Definition frame_settled (r : axios_settled) (s : state) : state :=
  match in_flight s with
  | O => s
  | S _ =>
      let s := settle s in
      match r with
      | Fulfilled data =>
          match live_success data with
          | inr (fb, f) => setFeedback f (setLiveFeedback (Some fb) s)
          | inl e => live_failure None (JS.message e) s
          end
      | Rejected response_data message => live_failure response_data message s
      end
  end.

(** [handleVideoUpload], up to the awaited [fetch]. The file input is
    rendered on the upload tab and disabled while analyzing. *)
Definition handleVideoUpload (name : string) (data : list Byte.byte)
  (localURL : string) (s : state) : state :=
  if String.eqb (activeTab s) "upload" && negb (isAnalyzing s) then
    let s := setUploadedVideoURL (Some localURL) s in
    let s := setIsAnalyzing true s in
    let s := setLiveFeedback None s in
    let s := setAnalysisResults Null s in
    send (video_request (recordingMode s) name data) false s
  else s.

(** The [catch] branch of [handleVideoUpload]. *)
Definition upload_failure (message : string) (s : state) : state :=
  setLiveFeedback
    (Some {| fb_status := Str "Analysis Error";
             fb_details :=
               Arr [JS.or (Str message) (Str "Analysis failed. Please try again.")];
             fb_score := Num 0 |}) s.

(** [handleVideoUpload], from the awaited [fetch] on. *)
Definition upload_settled (r : fetch_settled) (s : state) : state :=
  if isAnalyzing s then
    let s :=
      match r with
      | FetchFailed message => upload_failure message s
      | Fetched false _ => upload_failure "Analysis failed" s
      | Fetched true (inl e) => upload_failure (JS.message e) s
      | Fetched true (inr result) =>
          let s := setAnalysisResults result s in
          match get_prop result "overall_analysis" with
          | inl e => upload_failure (JS.message e) s
          | inr overall =>
              if truthy overall then
                setLiveFeedback
                  (Some {| fb_status := get overall "status";
                           fb_details := get overall "details";
                           fb_score := get overall "score" |}) s
              else s
          end
      end in
    setIsAnalyzing false s
  else s.

Definition handleStartStopRecording (granted : option nat) (s : state) : state :=
  if String.eqb (activeTab s) "upload" then s
  else if negb (isRecording s) then
    match granted with
    | Some stream =>
        setIsLiveAnalysisActive true (setIsRecording true (setLiveVideoStream (Some stream) s))
    | None => s
    end
  else
    let s := setIsLiveAnalysisActive false s in
    let s := setLiveVideoStream None s in
    let s := setIsRecording false s in
    let s := setLiveFeedback None s in
    setFeedback (Arr []) s.

Definition toggleLiveAnalysis (s : state) : state :=
  if String.eqb (activeTab s) "upload" || negb (isRecording s) then s
  else
    let active := isLiveAnalysisActive s in
    let s := setIsLiveAnalysisActive (negb active) s in
    if negb active then setFeedback (Arr []) (setLiveFeedback None s) else s.

Definition removeVideo (s : state) : state :=
  if negb (String.eqb (activeTab s) "webcam" && defined (liveVideoStream s))
     && defined (uploadedVideoURL s)
  then setAnalysisResults Null (setUploadedVideoURL None s)
  else s.

Definition handle (e : event) (s : state) : state :=
  match e with
  | ClickSquat => setRecordingMode "squat" s
  | ClickSitting => setRecordingMode "sitting" s
  | ClickWebcamTab => setActiveTab "webcam" s
  | ClickUploadTab => setActiveTab "upload" s
  | ClickStartStop granted => handleStartStopRecording granted s
  | ClickToggleLive => toggleLiveAnalysis s
  | ClickRemoveVideo => removeVideo s
  | Tick ready blob => tick ready blob s
  | FrameSettled r => frame_settled r s
  | SelectVideo name data localURL => handleVideoUpload name data localURL s
  | UploadSettled r => upload_settled r s
  end.

(** The live frame analysis effect, with dependencies
    [isLiveAnalysisActive, liveVideoStream, recordingMode]: when one of them
    changed, the interval of the previous run is cleared and a new one is
    set if the condition of the effect holds. *)
Definition deps_changed (prev next : state) : bool :=
  negb (Bool.eqb (isLiveAnalysisActive prev) (isLiveAnalysisActive next)
        && bool_decide (liveVideoStream prev = liveVideoStream next)
        && String.eqb (recordingMode prev) (recordingMode next)).

Definition live_effect (prev next : state) : state :=
  if deps_changed prev next then
    if isLiveAnalysisActive next && video_mounted next && defined (liveVideoStream next)
    then set_interval (Some POLL_MS) next
    else set_interval None next
  else next.

Definition step (s : state) (e : event) : state := live_effect s (handle e s).

Definition run (es : list event) : state := fold_left step es initial.

(** The score line above the live feedback,
    [liveFeedback?.score && (<div>Score: ...</div>)]: the element when the
    score is truthy; a falsy number is rendered as text, and nothing is
    rendered for the other falsy values. *)
Inductive rendered := Nothing | TextNode (v : JS.value) | ScoreLine (score : JS.value).

Definition score_line (fb : option live_feedback) : rendered :=
  match fb with
  | None => Nothing
  | Some fb =>
      if truthy (fb_score fb) then ScoreLine (fb_score fb)
      else match fb_score fb with
           | Num _ => TextNode (fb_score fb)
           | _ => Nothing
           end
  end.

End Component.

(** The multipart body that a request of the page is on the wire: a
    [Blob] is sent as a file named [blob], a [File] under its own name. *)
Fixpoint file_parts (f : list (string * part)) : list Multer.part :=
  match f with
  | [] => []
  | (k, Blob data) :: rest =>
      {| Multer.fieldname := k; Multer.filename := "blob"; Multer.content := data |}
        :: file_parts rest
  | (k, File name data) :: rest =>
      {| Multer.fieldname := k; Multer.filename := name; Multer.content := data |}
        :: file_parts rest
  | (_, Text _) :: rest => file_parts rest
  end.

Fixpoint text_fields (f : list (string * part)) : gmap string string :=
  match f with
  | [] => ∅
  | (k, Text v) :: rest => <[k := v]> (text_fields rest)
  | _ :: rest => text_fields rest
  end.

Definition multipart_of (r : http_request) : Multer.multipart :=
  {| Multer.files := file_parts (form r); Multer.fields := text_fields (form r) |}.

(** The mode field of a request. *)
Definition mode_of (r : http_request) : option string :=
  text_fields (form r) !! "mode".

(** The two modes the page offers. *)
Definition mode_ok (m : string) : Prop := m = "squat" \/ m = "sitting".

Definition request_ok (r : http_request) : Prop :=
  exists m, mode_of r = Some m /\ mode_ok m.

(** What holds of the page at every moment: the recording mode is one of
    the two, every request sent carries one of the two, and an interval,
    when set, has the period [POLL_MS]. *)
Definition page_ok (s : state) : Prop :=
  mode_ok (recordingMode s) /\
  Forall request_ok (sent s) /\
  (frameAnalysisInterval s = None \/ frameAnalysisInterval s = Some POLL_MS).

End Page.

(** ** The posture engine *)

Module Engine.

(** Modelled from the spec: the engine (the Python service behind the
    relay) is not among the sources. Its data model follows section 3 of
    the specification, the Rule Evaluator section 4.2, the Frame Analyzer
    section 4.3, the Session Aggregator section 4.4, and its interface
    sections 6 and 7. The rule tables, the penalty per issue, the landmark
    source, the angle calculator and the decoders, which the specification
    leaves open, are parameters. *)
Inductive Mode := Squat | Sitting.

Definition parse_mode (s : string) : option Mode :=
  if String.eqb s "squat" then Some Squat
  else if String.eqb s "sitting" then Some Sitting
  else None.

Inductive Status := GoodForm | NeedsImprovement | PoorForm | AnalysisError.

Definition status_label (s : Status) : string :=
  match s with
  | GoodForm => "Good Form"
  | NeedsImprovement => "Needs Improvement"
  | PoorForm => "Poor Form"
  | AnalysisError => "Analysis Error"
  end.

Inductive ErrorKind := UnsupportedMode | InvalidInput.

Definition error_label (e : ErrorKind) : string :=
  match e with
  | UnsupportedMode => "UnsupportedMode"
  | InvalidInput => "InvalidInput"
  end.

(** A joint angle in degrees, valid when every keypoint it was computed
    from is visible enough. *)
Record AngleMeasurement := { joint : string; angle : Q; valid : bool }.

(** A rule: the joint angle it reads, the accepted range (a bound that is
    absent is not checked) and the issue it emits. *)
Record Rule := { rule_joint : string; lo : option Q; hi : option Q; issue : string }.

Record FrameVerdict := { status : Status; details : list string; score : option Z }.

Definition accepted (r : Rule) (a : Q) : bool :=
  match lo r with Some l => Qle_bool l a | None => true end
  && match hi r with Some h => Qle_bool a h | None => true end.

(** A rule is violated by a valid measurement of its joint that falls
    outside the range; an invalid or absent measurement is left out. *)
Definition violated (angleSet : list AngleMeasurement) (r : Rule) : bool :=
  match find (fun m => String.eqb (joint m) (rule_joint r)) angleSet with
  | Some m => valid m && negb (accepted r (angle m))
  | None => false
  end.

(** The issues of the violated rules, in the order of the table. *)
Definition violations (table : list Rule) (angleSet : list AngleMeasurement)
  : list string :=
  map issue (filter (violated angleSet) table).

(** Status from score, by fixed bands. *)
Definition band (s : Z) : Status :=
  if (85 <=? s)%Z then GoodForm
  else if (50 <=? s)%Z then NeedsImprovement
  else PoorForm.

(** The report of a whole video. *)
Record Overall := { o_status : Status; o_score : option Q; o_details : list string }.

Record VideoStats := {
  duration : Q;
  total_frames : nat;
  analyzed_frames : nat;
  fps : Q;
  average_issues_per_frame : Q
}.

Record SessionReport := {
  overall_analysis : Overall;
  video_stats : VideoStats;
  most_common_issues : list (string * nat);
  undetected_frames : nat
}.

Definition status_eqb (a b : Status) : bool :=
  match a, b with
  | GoodForm, GoodForm | NeedsImprovement, NeedsImprovement
  | PoorForm, PoorForm | AnalysisError, AnalysisError => true
  | _, _ => false
  end.

(** The running aggregates of the frame loop: the issue counter in
    first-seen order, the number of issue occurrences, the sum and the
    number of the scores, the counter of the status bands, the frames
    without detection, and the frames analyzed. *)
Record Aggregates := {
  issue_freq : list (string * nat);
  issue_total : nat;
  score_sum : Z;
  scored : nat;
  band_count : Status -> nat;
  undetected : nat;
  analyzed : nat
}.

Definition no_aggregates : Aggregates :=
  {| issue_freq := []; issue_total := 0; score_sum := 0; scored := 0;
     band_count := fun _ => 0; undetected := 0; analyzed := 0 |}.

Fixpoint count_issue (i : string) (freq : list (string * nat)) : list (string * nat) :=
  match freq with
  | [] => [(i, 1)]
  | (j, c) :: rest =>
      if String.eqb i j then (j, S c) :: rest else (j, c) :: count_issue i rest
  end.

(** One verdict folded into the aggregates. A verdict without score (no
    detection) adds to the undetected frames and not to the score sum. *)
Definition accumulate (acc : Aggregates) (v : FrameVerdict) : Aggregates :=
  {| issue_freq := fold_left (fun f i => count_issue i f) (details v) (issue_freq acc);
     issue_total := issue_total acc + length (details v);
     score_sum := match score v with
                  | Some s => (score_sum acc + s)%Z
                  | None => score_sum acc
                  end;
     scored := match score v with Some _ => S (scored acc) | None => scored acc end;
     band_count := fun b =>
       if status_eqb b (status v) then S (band_count acc b) else band_count acc b;
     undetected := match score v with
                   | Some _ => undetected acc
                   | None => S (undetected acc)
                   end;
     analyzed := S (analyzed acc) |}.

(** Descending by count; an issue seen first stays first among equals. *)
Fixpoint insert_ranked (x : string * nat) (l : list (string * nat))
  : list (string * nat) :=
  match l with
  | [] => [x]
  | y :: rest =>
      if (snd y <? snd x)%nat then x :: y :: rest else y :: insert_ranked x rest
  end.

Definition ranked (freq : list (string * nat)) : list (string * nat) :=
  fold_left (fun l x => insert_ranked x l) freq [].

Definition ratio (n d : nat) : Q :=
  match d with
  | O => 0
  | S _ => (inject_Z (Z.of_nat n) / inject_Z (Z.of_nat d))%Q
  end.

(** Every [stride]-th frame, starting with the first. *)
Fixpoint sample_from {A} (stride skip : nat) (frames : list A) : list A :=
  match frames with
  | [] => []
  | f :: rest =>
      match skip with
      | O => f :: sample_from stride (pred stride) rest
      | S n => sample_from stride n rest
      end
  end.

Definition sample {A} (stride : nat) (frames : list A) : list A :=
  sample_from stride 0 frames.

Section Engine.

(** The rule table of each mode, and the penalty per issue. *)
Variable rule_table : Mode -> list Rule.
Variable k : Z.

Definition score_of (issueCount : nat) : Z :=
  Z.max 0 (100 - k * Z.of_nat issueCount).

Definition verdict_of (issues : list string) : FrameVerdict :=
  {| status := band (score_of (length issues));
     details := issues;
     score := Some (score_of (length issues)) |}.

(** [evaluate(mode, angleSet)]. *)
Definition evaluate (mode : Mode) (angleSet : list AngleMeasurement) : FrameVerdict :=
  if existsb valid angleSet then verdict_of (violations (rule_table mode) angleSet)
  else {| status := AnalysisError; details := []; score := None |}.

(** The landmark source, the joint angles of a mode computed from the
    keypoints, and the text of the issue that notes a missing joint. *)
Variable Image Keypoints : Type.
Variable detect : Image -> option Keypoints.
Variable angles : Mode -> Keypoints -> list AngleMeasurement.
Variable missing_joint : string -> string.

(** [analyzeFrame(image, mode)]. *)
Definition analyzeFrame (image : Image) (mode : Mode) : FrameVerdict :=
  match detect image with
  | None =>
      {| status := AnalysisError; details := ["No pose detected"]; score := None |}
  | Some keypoints =>
      let angleSet := angles mode keypoints in
      match filter (fun m => negb (valid m)) angleSet with
      | [m] =>
          if existsb valid angleSet then
            verdict_of (violations (rule_table mode) angleSet ++ [missing_joint (joint m)])
          else evaluate mode angleSet
      | _ => evaluate mode angleSet
      end
  end.

(** The sampling stride and the length of the ranking. *)
Variable stride : nat.
Variable top_n : nat.

Definition finalize (total : nat) (rate : Q) (acc : Aggregates) : SessionReport :=
  let top := take top_n (ranked (issue_freq acc)) in
  {| overall_analysis :=
       match scored acc with
       | O => {| o_status := AnalysisError; o_score := None; o_details := map fst top |}
       | S _ =>
           {| o_status := band (score_sum acc / Z.of_nat (scored acc));
              o_score := Some (inject_Z (score_sum acc) / inject_Z (Z.of_nat (scored acc)))%Q;
              o_details := map fst top |}
       end;
     video_stats :=
       {| duration := (inject_Z (Z.of_nat total) / rate)%Q;
          total_frames := total;
          analyzed_frames := analyzed acc;
          fps := rate;
          average_issues_per_frame := ratio (issue_total acc) (analyzed acc) |};
     most_common_issues := top;
     undetected_frames := undetected acc |}.

(** [analyzeVideo(frames, fps, mode)]: a reduction over the verdicts of
    the sampled frames, then the report. *)
Definition analyzeVideo (frames : list Image) (rate : Q) (mode : Mode) : SessionReport :=
  finalize (length frames) rate
    (fold_left (fun acc f => accumulate acc (analyzeFrame f mode))
       (sample stride frames) no_aggregates).

(** The same pass, one frame at a time: the aggregates while frames are
    left, the report once none is. Only a finished pass exposes a report. *)
Inductive pass :=
| Running (acc : Aggregates) (todo : list Image)
| Finished (report : SessionReport).

Definition start (frames : list Image) : pass :=
  Running no_aggregates (sample stride frames).

Definition pass_step (total : nat) (rate : Q) (mode : Mode) (p : pass) : pass :=
  match p with
  | Running acc [] => Finished (finalize total rate acc)
  | Running acc (f :: rest) => Running (accumulate acc (analyzeFrame f mode)) rest
  | Finished r => Finished r
  end.

Definition exposed (p : pass) : option SessionReport :=
  match p with
  | Running _ _ => None
  | Finished r => Some r
  end.

(** [n] steps of the pass. *)
Fixpoint run_pass (total : nat) (rate : Q) (mode : Mode) (n : nat) (p : pass) : pass :=
  match n with
  | O => p
  | S n => run_pass total rate mode n (pass_step total rate mode p)
  end.

End Engine.

End Engine.

(** ** The engine behind the relay *)

Module Service.
Import JS Relay Engine.

(** Modelled from the spec: the HTTP face of the engine, which is not
    among the sources. Section 6 gives the two results and their properties,
    section 7 the two failures that are fatal for a request. The decoders of
    images and videos, the content of the files on the relay's disk, the
    status code of a failed request and the address of the engine are
    parameters. *)
Definition verdict_json (v : FrameVerdict) : JS.value :=
  Obj [("status", Str (status_label (status v)));
       ("score", match score v with Some s => Num (inject_Z s) | None => Null end);
       ("details", Arr (map Str (details v)))].

Definition report_json (r : SessionReport) : JS.value :=
  let o := overall_analysis r in
  let v := video_stats r in
  Obj [("overall_analysis",
        Obj [("status", Str (status_label (o_status o)));
             ("score", match o_score o with Some q => Num (Qred q) | None => Null end);
             ("details", Arr (map Str (o_details o)))]);
       ("video_stats",
        Obj ([("duration", Num (Qred (duration v)));
              ("total_frames", Num (inject_Z (Z.of_nat (total_frames v))));
              ("analyzed_frames", Num (inject_Z (Z.of_nat (analyzed_frames v))));
              ("fps", Num (Qred (fps v)));
              ("average_issues_per_frame", Num (Qred (average_issues_per_frame v)))]
             ++ match undetected_frames r with
                | O => []
                | S _ => [("undetected_frames",
                           Num (inject_Z (Z.of_nat (undetected_frames r))))]
                end));
       ("most_common_issues",
        Arr (map (fun ic => Obj [("issue", Str (fst ic));
                                 ("count", Num (inject_Z (Z.of_nat (snd ic))))])
               (most_common_issues r)))].

Section Service.

Variable rule_table : Mode -> list Rule.
Variable k : Z.
Variable Image Keypoints : Type.
Variable detect : Image -> option Keypoints.
Variable angles : Mode -> Keypoints -> list AngleMeasurement.
Variable missing_joint : string -> string.
Variable stride top_n : nat.
Variable decode_image : list Byte.byte -> option Image.
Variable decode_video : list Byte.byte -> option (list Image * Q).
Variable read : string -> list Byte.byte.
Variable error_code : nat.
Variable origin : string.

Definition fail (e : ErrorKind) : http_outcome :=
  Responded error_code (Obj [("error", Str (error_label e))]).

Definition form_mode (f : form) : option Mode :=
  match form_get "mode" f with
  | Some (FValue (Str m)) => parse_mode m
  | _ => None
  end.

Definition form_bytes (key : string) (f : form) : option (list Byte.byte) :=
  match form_get key f with
  | Some (FBuffer data _ _) => Some data
  | Some (FStream path) => Some (read path)
  | _ => None
  end.

(** The single-frame endpoint. *)
Definition frame_endpoint (f : form) : http_outcome :=
  match form_mode f with
  | None => fail UnsupportedMode
  | Some mode =>
      match form_bytes "image" f ≫= decode_image with
      | None => fail InvalidInput
      | Some image =>
          Responded 200
            (verdict_json
               (analyzeFrame rule_table k Image Keypoints detect angles missing_joint
                  image mode))
      end
  end.

(** The video endpoint. *)
Definition video_endpoint (f : form) : http_outcome :=
  match form_mode f with
  | None => fail UnsupportedMode
  | Some mode =>
      match form_bytes "video" f ≫= decode_video with
      | None => fail InvalidInput
      | Some (frames, rate) =>
          Responded 200
            (report_json
               (analyzeVideo rule_table k Image Keypoints detect angles missing_joint
                  stride top_n frames rate mode))
      end
  end.

(** The engine listens at [origin]; nothing answers elsewhere. *)
Definition flask (url : string) (f : form) : http_outcome :=
  if String.eqb url (origin ++ "/frame") then frame_endpoint f
  else if String.eqb url (origin ++ "/analyze") then video_endpoint f
  else Unreachable ("connect ECONNREFUSED " ++ url).

End Service.

End Service.

(** ** Sample data *)

Module Samples.
Import JS Relay.

(** A video result of the engine, in the shape of section 6. *)
Definition sample_report : JS.value :=
  Obj [("overall_analysis",
        Obj [("status", Str "Needs Improvement"); ("score", Num 80);
             ("details", Arr [Str "knee angle too small"])]);
       ("video_stats",
        Obj [("duration", Num 2); ("total_frames", Num 60);
             ("analyzed_frames", Num 10); ("fps", Num 30);
             ("average_issues_per_frame", Num 1)]);
       ("most_common_issues",
        Arr [Obj [("issue", Str "knee angle too small"); ("count", Num 8)];
             Obj [("issue", Str "back not straight"); ("count", Num 2)]])].

(** An engine that answers every request with [sample_report]. *)
Definition constant_engine (url : string) (f : form) : http_outcome :=
  Responded 200 sample_report.


(** An engine that is down. *)
Definition dead_engine (url : string) (f : form) : http_outcome :=
  Unreachable "connect ECONNREFUSED 127.0.0.1:5001".

(** An uploaded video on the relay's disk, without a mode field. *)
Definition video_upload : request disk_file :=
  {| file := Some {| path := "uploads/3f9a" |}; req_body := ∅ |}.

Definition exercise_upload : request disk_file :=
  {| file := Some {| path := "temp/77c1" |}; req_body := ∅ |}.

Definition jpeg : list Byte.byte := [Byte.xff; Byte.xd8; Byte.xff; Byte.xd9].

(** The body of the frame requests of the recording page. *)
Definition webcam_frame : Multer.multipart :=
  Page.multipart_of (Page.frame_request (Some "http://localhost:5000") "squat" jpeg).

(** A printer of numbers, for the samples. *)
Definition show (q : Q) : string :=
  match Qden q with
  | xH => pretty (Qnum q)
  | d => pretty (Qnum q) ++ "/" ++ pretty (Zpos d)
  end.

(** A body without any file. *)
Definition no_file : Multer.multipart :=
  {| Multer.files := []; Multer.fields := {["mode" := "squat"]} |}.

(** A body with the image under the field the route declares. *)
Definition image_frame : Multer.multipart :=
  {| Multer.files :=
       [{| Multer.fieldname := "image"; Multer.filename := "frame.jpg";
           Multer.content := jpeg |}];
     Multer.fields := {["mode" := "sitting"]} |}.

(** Rule tables: the knee and the back for a squat, the neck for
    sitting. *)
Definition rules (m : Engine.Mode) : list Engine.Rule :=
  match m with
  | Engine.Squat =>
      [{| Engine.rule_joint := "knee"; Engine.lo := Some 90%Q;
          Engine.hi := Some 160%Q; Engine.issue := "knee angle too small" |};
       {| Engine.rule_joint := "back"; Engine.lo := Some 150%Q;
          Engine.hi := None; Engine.issue := "back not straight" |}]
  | Engine.Sitting =>
      [{| Engine.rule_joint := "neck"; Engine.lo := Some 150%Q;
          Engine.hi := None; Engine.issue := "neck bent forward" |}]
  end.

(** A knee angle of 70 degrees against the range [90,160], with a straight
    back; and the same knee with a bent back. *)
Definition low_knee : list Engine.AngleMeasurement :=
  [{| Engine.joint := "knee"; Engine.angle := 70%Q; Engine.valid := true |};
   {| Engine.joint := "back"; Engine.angle := 170%Q; Engine.valid := true |}].


(** A landmark source that finds no subject in an empty image, and the
    pose [low_knee] in any other; images and videos that decode to
    themselves, a video to three frames at 30 frames per second, the last
    of them without subject. *)
Definition detect (image : list Byte.byte) : option (list Engine.AngleMeasurement) :=
  match image with
  | [] => None
  | _ :: _ => Some low_knee
  end.

Definition angles (m : Engine.Mode) (keypoints : list Engine.AngleMeasurement)
  : list Engine.AngleMeasurement := keypoints.

Definition missing_joint (j : string) : string := "cannot see the " ++ j.

Definition decode_image (bytes : list Byte.byte) : option (list Byte.byte) :=
  Some bytes.

Definition decode_video (bytes : list Byte.byte)
  : option (list (list Byte.byte) * Q) :=
  Some ([bytes; bytes; []], 30%Q).

Definition read (path : string) : list Byte.byte := jpeg.

(** A frame without subject, under the field the route declares. *)
Definition empty_frame : Multer.multipart :=
  {| Multer.files :=
       [{| Multer.fieldname := "image"; Multer.filename := "frame.jpg";
           Multer.content := [] |}];
     Multer.fields := {["mode" := "squat"]} |}.

(** A video upload, before multer has stored it. *)
Definition video_body : Multer.multipart :=
  {| Multer.files :=
       [{| Multer.fieldname := "video"; Multer.filename := "squat.webm";
           Multer.content := jpeg |}];
     Multer.fields := {["mode" := "squat"]} |}.

End Samples.

(** ** The page and the relay on the wire *)

Module Wire.
Import JS.

(** How the awaited [axios.post] of the page ends for an answer of the
    relay: axios resolves with the body on a 2xx status and rejects
    otherwise, with the body as [err.response.data]. *)
Definition axios_settle (r : Relay.response) : Page.axios_settled :=
  if bool_decide (200 <= Relay.status r < 300)%nat
  then Page.Fulfilled (Relay.body r)
  else Page.Rejected (Some (Relay.body r))
         ("Request failed with status code " ++ pretty (Relay.status r)).

(** What holds of the live analysis at every moment: an interval is set
    only while the live analysis is active and a stream is held; the live
    analysis is active only while recording; and the page records exactly
    while it holds a stream. *)
Definition live_ok (s : Page.state) : Prop :=
  (Page.defined (Page.frameAnalysisInterval s) = true ->
   Page.isLiveAnalysisActive s = true /\ Page.defined (Page.liveVideoStream s) = true) /\
  (Page.isLiveAnalysisActive s = true -> Page.isRecording s = true) /\
  Page.isRecording s = Page.defined (Page.liveVideoStream s).

End Wire.

(** ** The results panel of the page *)

Module Display.
Import JS.

(** How the awaited [fetch] of the page ends for an answer of the relay:
    [response.ok] is true on a 2xx status, and [response.json()] gives the
    body. *)
Definition fetch_settle (r : Relay.response) : Page.fetch_settled :=
  Page.Fetched (bool_decide (200 <= Relay.status r < 300)%nat) (inr (Relay.body r)).

(** [v === s] for a string [s]. *)
Definition is_string (v : JS.value) (s : string) : bool :=
  match v with
  | Str t => String.eqb t s
  | _ => false
  end.

Inductive badge := Green | Red | Yellow.

(** The head of the "Analysis Results" panel while [analysisResults] is
    set: the score line, read with [overall_analysis?.score], and the status
    badge, read with [overall_analysis.status], which throws when
    [overall_analysis] is [undefined] or [null]. *)
Record overall_panel := {
  panel_score : Page.rendered;
  panel_badge : badge;
  panel_status : JS.value
}.

Definition results_panel (analysisResults : JS.value) : JS.error + overall_panel :=
  let overall := get analysisResults "overall_analysis" in
  let score :=
    match overall with
    | Undefined | Null => Undefined
    | _ => get overall "score"
    end in
  match get_prop overall "status" with
  | inl e => inl e
  | inr status =>
      inr {| panel_score :=
               if truthy score then Page.ScoreLine score
               else match score with
                    | Num _ => Page.TextNode score
                    | _ => Page.Nothing
                    end;
             panel_badge :=
               if is_string status "Good Form" || is_string status "Good Posture"
               then Green
               else if is_string status "Analysis Error" then Red
               else Yellow;
             panel_status := status |}
  end.

(** The panel under "Analysis Results": the results of the upload when
    [analysisResults] is truthy, the live feedback otherwise. *)
Definition panel (s : Page.state) : JS.error + (overall_panel + Page.rendered) :=
  if truthy (Page.analysisResults s) then
    match results_panel (Page.analysisResults s) with
    | inl e => inl e
    | inr p => inr (inl p)
    end
  else inr (inr (Page.score_line (Page.liveFeedback s))).

End Display.

(** ** The recorder component *)

Module Recorder.

(** A chunk that the media recorder hands over, the closure of
    [handleSave] that a click on "Stop & Analyze" schedules (the chunks,
    the mode and the [onUpload] of the render in which the click happened),
    and a file passed to [onUpload]. *)
Abbreviation chunk := (list Byte.byte).

Record closure := {
  seen_chunks : list chunk;
  seen_mode : string;
  seen_onUpload : bool
}.

Record file := { file_name : string; file_chunks : list chunk }.

(** The React state of [VideoRecorder], the interval held in [timerRef],
    the media recorder held in [mediaRecorderRef] ([Some true] while it
    records, [Some false] once inactive), the scheduled calls of
    [handleSave], the files passed to [onUpload] so far, and the number of
    uploads that have not settled. *)
Record state := {
  capturing : bool;
  recordedChunks : list chunk;
  videoUrl : string;
  recordingTime : nat;
  isWebcamReady : bool;
  timer : bool;
  mediaRecorder : option bool;
  scheduled : list closure;
  uploads : list file;
  awaiting : nat
}.

Definition maxDuration : nat := 30.

Definition initial : state :=
  {| capturing := false; recordedChunks := []; videoUrl := "";
     recordingTime := 0; isWebcamReady := false; timer := false;
     mediaRecorder := None; scheduled := []; uploads := []; awaiting := 0 |}.

Inductive event :=
| UserMedia
| ClickStart (isAnalyzing : bool) (stream : bool) (supported : bool)
| TimerTick
| DataAvailable (data : chunk)
| ClickStop (mode : string) (onUpload : bool)
| SaveTimeout (now : N) (url : string)
| UploadDone.

(** [stopRecording]: the recorder is stopped unless inactive, the capture
    flag is lowered and the timer cleared. *)
Definition stopRecording (s : state) : state :=
  {| capturing := false; recordedChunks := recordedChunks s;
     videoUrl := videoUrl s; recordingTime := recordingTime s;
     isWebcamReady := isWebcamReady s; timer := false;
     mediaRecorder := match mediaRecorder s with
                      | Some _ => Some false
                      | None => None
                      end;
     scheduled := scheduled s; uploads := uploads s; awaiting := awaiting s |}.

(** [startRecording]. Without a stream the [try] throws at once; with a
    stream the capture flag is raised and the chunks are emptied before the
    recorder is made, and a recorder that cannot be made ([supported] is
    false) throws before the timer starts. The [catch] lowers the flag. *)
Definition startRecording (stream supported : bool) (s : state) : state :=
  if negb stream then
    {| capturing := false; recordedChunks := recordedChunks s;
       videoUrl := videoUrl s; recordingTime := recordingTime s;
       isWebcamReady := isWebcamReady s; timer := timer s;
       mediaRecorder := mediaRecorder s; scheduled := scheduled s;
       uploads := uploads s; awaiting := awaiting s |}
  else if negb supported then
    {| capturing := false; recordedChunks := [];
       videoUrl := videoUrl s; recordingTime := recordingTime s;
       isWebcamReady := isWebcamReady s; timer := timer s;
       mediaRecorder := mediaRecorder s; scheduled := scheduled s;
       uploads := uploads s; awaiting := awaiting s |}
  else
    {| capturing := true; recordedChunks := [];
       videoUrl := videoUrl s; recordingTime := 0;
       isWebcamReady := isWebcamReady s; timer := true;
       mediaRecorder := Some true; scheduled := scheduled s;
       uploads := uploads s; awaiting := awaiting s |}.

(** The callback of the timer of [startTimer]. *)
Definition timerTick (s : state) : state :=
  if timer s then
    if (maxDuration <=? recordingTime s)%nat then
      let s := stopRecording s in
      {| capturing := capturing s; recordedChunks := recordedChunks s;
         videoUrl := videoUrl s; recordingTime := maxDuration;
         isWebcamReady := isWebcamReady s; timer := timer s;
         mediaRecorder := mediaRecorder s; scheduled := scheduled s;
         uploads := uploads s; awaiting := awaiting s |}
    else
      {| capturing := capturing s; recordedChunks := recordedChunks s;
         videoUrl := videoUrl s; recordingTime := S (recordingTime s);
         isWebcamReady := isWebcamReady s; timer := timer s;
         mediaRecorder := mediaRecorder s; scheduled := scheduled s;
         uploads := uploads s; awaiting := awaiting s |}
  else s.

Definition setRecordedChunks (v : list chunk) (s : state) : state :=
  {| capturing := capturing s; recordedChunks := v;
     videoUrl := videoUrl s; recordingTime := recordingTime s;
     isWebcamReady := isWebcamReady s; timer := timer s;
     mediaRecorder := mediaRecorder s; scheduled := scheduled s;
     uploads := uploads s; awaiting := awaiting s |}.

(** [handleDataAvailable]: data of size 0 is dropped. *)
Definition handleDataAvailable (data : chunk) (s : state) : state :=
  match mediaRecorder s with
  | None => s
  | Some _ =>
      if (0 <? length data)%nat
      then setRecordedChunks (recordedChunks s ++ [data]) s
      else s
  end.

(** The click on "Stop & Analyze": [stopRecording()], then
    [setTimeout(handleSave, 500)] with the [handleSave] of this render. *)
Definition clickStop (mode : string) (onUpload : bool) (s : state) : state :=
  if capturing s then
    let c := {| seen_chunks := recordedChunks s; seen_mode := mode;
                seen_onUpload := onUpload |} in
    let s := stopRecording s in
    {| capturing := capturing s; recordedChunks := recordedChunks s;
       videoUrl := videoUrl s; recordingTime := recordingTime s;
       isWebcamReady := isWebcamReady s; timer := timer s;
       mediaRecorder := mediaRecorder s; scheduled := scheduled s ++ [c];
       uploads := uploads s; awaiting := awaiting s |}
  else s.

(** The file of [handleSave]. *)
Definition recording (c : closure) (now : N) : file :=
  {| file_name := seen_mode c ++ "_recording_" ++ pretty now ++ ".webm";
     file_chunks := seen_chunks c |}.

(** [handleSave], up to the awaited [onUpload]. *)
Definition handleSave (c : closure) (now : N) (url : string) (s : state) : state :=
  match seen_chunks c with
  | [] => s
  | _ :: _ =>
      {| capturing := capturing s; recordedChunks := recordedChunks s;
         videoUrl := url; recordingTime := recordingTime s;
         isWebcamReady := isWebcamReady s; timer := timer s;
         mediaRecorder := mediaRecorder s; scheduled := scheduled s;
         uploads := if seen_onUpload c then uploads s ++ [recording c now]
                    else uploads s;
         awaiting := if seen_onUpload c then S (awaiting s) else awaiting s |}
  end.

(** The timeout of a click fires. *)
Definition saveTimeout (now : N) (url : string) (s : state) : state :=
  match scheduled s with
  | [] => s
  | c :: rest =>
      handleSave c now url
        {| capturing := capturing s; recordedChunks := recordedChunks s;
           videoUrl := videoUrl s; recordingTime := recordingTime s;
           isWebcamReady := isWebcamReady s; timer := timer s;
           mediaRecorder := mediaRecorder s; scheduled := rest;
           uploads := uploads s; awaiting := awaiting s |}
  end.

(** The [finally] of [handleSave], once [onUpload] has settled. *)
Definition uploadDone (s : state) : state :=
  match awaiting s with
  | O => s
  | S n =>
      {| capturing := capturing s; recordedChunks := [];
         videoUrl := videoUrl s; recordingTime := recordingTime s;
         isWebcamReady := isWebcamReady s; timer := timer s;
         mediaRecorder := mediaRecorder s; scheduled := scheduled s;
         uploads := uploads s; awaiting := n |}
  end.

Definition step (s : state) (e : event) : state :=
  match e with
  | UserMedia =>
      {| capturing := capturing s; recordedChunks := recordedChunks s;
         videoUrl := videoUrl s; recordingTime := recordingTime s;
         isWebcamReady := true; timer := timer s;
         mediaRecorder := mediaRecorder s; scheduled := scheduled s;
         uploads := uploads s; awaiting := awaiting s |}
  | ClickStart isAnalyzing stream supported =>
      if negb (capturing s) && isWebcamReady s && negb isAnalyzing
      then startRecording stream supported s
      else s
  | TimerTick => timerTick s
  | DataAvailable data => handleDataAvailable data s
  | ClickStop mode onUpload => clickStop mode onUpload s
  | SaveTimeout now url => saveTimeout now url s
  | UploadDone => uploadDone s
  end.

Definition run (es : list event) : state := fold_left step es initial.

(** [padStart(2, '0')]. *)
Definition padStart2 (s : string) : string :=
  match String.length s with
  | 0 => "00" ++ s
  | 1 => "0" ++ s
  | _ => s
  end.

(** [formatTime(seconds)]. *)
Definition formatTime (seconds : nat) : string :=
  let mins := seconds / 60 in
  let secs := seconds mod 60 in
  padStart2 (pretty mins) ++ ":" ++ padStart2 (pretty secs).

(** A reader of the display, to state that it can be read back: two
    decimal digits, a colon, two decimal digits. *)
Definition digit (a : Ascii.ascii) : option nat :=
  let n := Ascii.nat_of_ascii a in
  if (48 <=? n)%nat && (n <=? 57)%nat then Some (n - 48) else None.

Definition read_time (s : string) : option nat :=
  match s with
  | String m1 (String m0 (String colon (String s1 (String s0 EmptyString)))) =>
      match digit m1, digit m0, digit s1, digit s0 with
      | Some a, Some b, Some c, Some d =>
          if (Ascii.nat_of_ascii colon =? 58)%nat
          then Some ((a * 10 + b) * 60 + (c * 10 + d))
          else None
      | _, _, _, _ => None
      end
  | _ => None
  end.

(** What holds of the recorder at every moment. *)
Definition recorder_ok (s : state) : Prop :=
  recordingTime s <= maxDuration /\
  timer s = capturing s /\
  (capturing s = true -> mediaRecorder s = Some true).

Definition sized (c : chunk) : Prop := c <> [].

Definition file_ok (f : file) : Prop :=
  file_chunks f <> [] /\ Forall sized (file_chunks f) /\
  exists (mode : string) (now : N),
    file_name f = mode ++ "_recording_" ++ pretty now ++ ".webm".

Definition chunks_ok (s : state) : Prop :=
  Forall sized (recordedChunks s) /\
  Forall (fun c => Forall sized (seen_chunks c)) (scheduled s) /\
  Forall file_ok (uploads s).

End Recorder.

(** ** More sample data *)

Module Scenarios.
Import JS Relay.


Definition nothing : request disk_file :=
  {| file := None; req_body := ∅ |}.


(** Two videos in one body. *)
Definition two_videos : Multer.multipart :=
  {| Multer.files :=
       [{| Multer.fieldname := "video"; Multer.filename := "a.webm";
           Multer.content := Samples.jpeg |};
        {| Multer.fieldname := "video"; Multer.filename := "b.webm";
           Multer.content := Samples.jpeg |}];
     Multer.fields := ∅ |}.

(** An image for an exercise route. *)
Definition exercise_body : Multer.multipart :=
  {| Multer.files :=
       [{| Multer.fieldname := "frame"; Multer.filename := "shot.jpg";
           Multer.content := Samples.jpeg |}];
     Multer.fields := ∅ |}.

(** The page while it records with a frame outstanding, and the recorder
    while it records. *)
Definition recording_page : Page.state :=
  Page.run (Some "http://localhost:5000") Samples.show
    [Page.ClickStartStop (Some 1); Page.Tick true (Some Samples.jpeg)].

Definition recording_recorder : Recorder.state :=
  Recorder.run
    [Recorder.UserMedia; Recorder.ClickStart false true true;
     Recorder.DataAvailable Samples.jpeg].

End Scenarios.

(** * Properties *)

Import JS Eff Relay.

(** ** The relay *)

Lemma axios_post_outcome flask url f fs :
  axios_post flask url f fs =
    (if engine_ok (flask url f)
     then match flask url f with
          | Responded _ data => Normal data
          | Unreachable _ => Abrupt (axios_error (flask url f))
          end
     else Abrupt (axios_error (flask url f)), fs).
Proof.
  unfold axios_post, engine_ok.
  destruct (flask url f) as [code data | msg]; [|reflexivity].
  destruct (bool_decide (200 <= code < 300)%nat); reflexivity.
Qed.

(** The answer of the two controllers for an outcome of the engine. *)
Lemma analyzeSingleFrame_answer flask (req : request memory_file) f fs :
  file req = Some f ->
  analyzeSingleFrame flask req fs =
    (Normal
       match flask "http://127.0.0.1:5001/frame" (frame_form (buffer f) (req_body req)) with
       | Responded code data =>
           if bool_decide (200 <= code < 300)%nat
           then {| status := 200;
                   body := Obj [("success", Bool true); ("feedback", data)] |}
           else failure (axios_error (Responded code data))
       | Unreachable msg => failure (axios_error (Unreachable msg))
       end, fs).
Proof.
  intros Hf. unfold analyzeSingleFrame, try_catch, bind, file_of.
  rewrite Hf. cbn [ret]. rewrite axios_post_outcome. unfold engine_ok.
  destruct (flask _ _) as [code data | msg]; [|reflexivity].
  destruct (bool_decide (200 <= code < 300)%nat); reflexivity.
Qed.

Lemma analyzeSingleFrame_no_file flask (req : request memory_file) fs :
  file req = None ->
  analyzeSingleFrame flask req fs = (Normal (failure (undefined_property "buffer")), fs).
Proof.
  intros Hf. unfold analyzeSingleFrame, try_catch, bind, file_of.
  rewrite Hf. reflexivity.
Qed.

Lemma analyzeUploadedVideo_answer flask PY (req : request disk_file) f fs :
  file req = Some f -> path f ∈ fs ->
  analyzeUploadedVideo flask PY req fs =
    match flask (env_concat PY "/analyze") (video_form (path f) (req_body req)) with
    | Responded code data =>
        if bool_decide (200 <= code < 300)%nat
        then (Normal {| status := 200;
                        body := Obj [("success", Bool true); ("flaskResponse", data)] |},
              fs ∖ {[path f]})
        else (Normal (failure (axios_error (Responded code data))), fs)
    | Unreachable msg => (Normal (failure (axios_error (Unreachable msg))), fs)
    end.
Proof.
  intros Hf Hin. unfold analyzeUploadedVideo, try_catch, bind, file_of.
  rewrite Hf. cbn [ret]. rewrite axios_post_outcome. unfold engine_ok.
  destruct (flask _ _) as [code data | msg]; [|reflexivity].
  destruct (bool_decide (200 <= code < 300)%nat); [|reflexivity].
  unfold unlinkSync. destruct (decide (path f ∈ fs)); [reflexivity | contradiction].
Qed.

Lemma analyzeUploadedVideo_no_file flask PY (req : request disk_file) fs :
  file req = None ->
  analyzeUploadedVideo flask PY req fs = (Normal (failure (undefined_property "path")), fs).
Proof.
  intros Hf. unfold analyzeUploadedVideo, try_catch, bind, file_of.
  rewrite Hf. reflexivity.
Qed.



Lemma analyze_squat_answer flask (req : request disk_file) f fs :
  file req = Some f -> path f ∈ fs ->
  analyze_squat flask req fs =
    (Normal
       match flask "http://localhost:5001/analyze/squat" [("frame", FStream (path f))] with
       | Responded code data =>
           if bool_decide (200 <= code < 300)%nat
           then {| status := 200; body := data |}
           else {| status := 500;
                   body := Obj [("error",
                                 Str (message (axios_error (Responded code data))))] |}
       | Unreachable msg => {| status := 500; body := Obj [("error", Str msg)] |}
       end, fs ∖ {[path f]}).
Proof.
  intros Hf Hin. unfold analyze_squat, analyze_exercise, try_catch, bind.
  rewrite Hf. cbn [ret]. rewrite axios_post_outcome. unfold engine_ok, unlinkSync.
  destruct (flask _ _) as [code data | msg].
  - destruct (bool_decide (200 <= code < 300)%nat);
      destruct (decide (path f ∈ fs)); try contradiction; reflexivity.
  - destruct (decide (path f ∈ fs)); try contradiction; reflexivity.
Qed.






Lemma removed_is_absent (p : string) (fs : gset string) : p ∉ fs ∖ {[p]}.
Proof. rewrite elem_of_difference, elem_of_singleton. tauto. Qed.

(** C10: the video controller deletes the upload only when the engine
    answered with success; when the request to the engine fails, the caller
    gets the failure object and the file stays on disk. The analyze-squat
    handler deletes its upload whether the engine succeeds or fails. *)
Theorem upload_deleted_only_on_success
  flask PY (req : request disk_file) f fs :
  file req = Some f -> path f ∈ fs ->
  let outcome := flask (env_concat PY "/analyze") (video_form (path f) (req_body req)) in
  let video := analyzeUploadedVideo flask PY req fs in
  let squat := analyze_squat flask req fs in
  (engine_ok outcome = false ->
     fst video = Normal (failure (axios_error outcome)) /\
     snd video = fs /\ path f ∈ snd video) /\
  (engine_ok outcome = true ->
     snd video = fs ∖ {[path f]} /\ path f ∉ snd video) /\
  snd squat = fs ∖ {[path f]} /\ path f ∉ snd squat.
Proof.
  intros Hf Hin outcome video squat. subst video squat.
  rewrite (analyzeUploadedVideo_answer _ _ _ f) by done.
  rewrite (analyze_squat_answer _ _ f) by done.
  fold outcome. unfold engine_ok.
  destruct outcome as [code data | msg]; cbn [fst snd].
  - destruct (bool_decide (200 <= code < 300)%nat); cbn [fst snd].
    + split; [intros Hx; discriminate Hx|].
      split; [intros _|]; (split; [reflexivity | apply removed_is_absent]).
    + split; [intros _; by repeat split|].
      split; [intros Hx; discriminate Hx|].
      split; [reflexivity | apply removed_is_absent].
  - split; [intros _; by repeat split|].
    split; [intros Hx; discriminate Hx|].
    split; [reflexivity | apply removed_is_absent].
Qed.

Lemma upload_deleted_only_on_success_witness :
  "uploads/3f9a" ∈ snd (analyzeUploadedVideo Samples.dead_engine None
                          Samples.video_upload {["uploads/3f9a"]}) /\
  "uploads/3f9a" ∉ snd (analyze_squat Samples.dead_engine
                          Samples.video_upload {["uploads/3f9a"]}).
Proof.
  assert (Hin : "uploads/3f9a" ∈ ({["uploads/3f9a"]} : gset string)) by set_solver.
  pose proof (upload_deleted_only_on_success Samples.dead_engine None
                Samples.video_upload {| path := "uploads/3f9a" |}
                {["uploads/3f9a"]} eq_refl Hin) as (Hfail & _ & _ & Hsquat).
  split; [exact (proj2 (proj2 (Hfail eq_refl))) | exact Hsquat].
Defined.

(** ** The frame route and its multipart parser *)

Lemma accept_unexpected name n ps p :
  p ∈ ps -> Multer.filename p <> "" -> Multer.fieldname p <> name ->
  exists e, Multer.accept name n ps = inl e.
Proof.
  intros Hin Hname Hfield. revert n.
  induction ps as [|q ps IH]; intros n; [by apply elem_of_nil in Hin|].
  cbn [Multer.accept].
  destruct (String.eqb_spec (Multer.filename q) "") as [Hq|Hq].
  - apply elem_of_cons in Hin as [->|Hin]; [contradiction | by apply IH].
  - destruct (String.eqb_spec (Multer.fieldname q) name) as [Hqn|Hqn].
    + apply elem_of_cons in Hin as [->|Hin]; [contradiction|].
      destruct n as [|n]; [eauto|].
      destruct (IH Hin n) as [e ->]. eauto.
    + eauto.
Qed.

Lemma accept_unnamed name n ps :
  Forall (fun p => Multer.filename p = "") ps -> Multer.accept name n ps = inr [].
Proof.
  induction 1 as [|p ps Hp _ IH]; [reflexivity|].
  cbn [Multer.accept]. rewrite Hp. exact IH.
Qed.

Lemma accept_field name n ps fs :
  Multer.accept name n ps = inr fs ->
  Forall (fun p => p ∈ ps /\ Multer.fieldname p = name) fs.
Proof.
  revert n fs. induction ps as [|q ps IH]; intros n fs; cbn [Multer.accept].
  - intros [= <-]. constructor.
  - destruct (String.eqb_spec (Multer.filename q) "") as [Hq|Hq].
    + intros H. eapply Forall_impl; [exact (IH _ _ H)|].
      intros p [Hp Hn]. split; [by apply elem_of_cons; right | done].
    + destruct (String.eqb_spec (Multer.fieldname q) name) as [Hqn|Hqn]; [|done].
      destruct n as [|n]; [done|].
      destruct (Multer.accept name n ps) as [e|fs0] eqn:Hacc; [done|].
      intros [= <-]. constructor.
      * split; [by apply elem_of_cons; left | done].
      * eapply Forall_impl; [exact (IH _ _ Hacc)|].
        intros p [Hp Hn]. split; [by apply elem_of_cons; right | done].
Qed.

(** C4 (amended): the frame route takes the image from the multipart field
    "image" only. A request that carries a file under another field name is
    refused by the parser with "Unexpected field", the controller does not
    run, and the error middleware of the router answers 400 with an error
    object. A request that carries no file reaches the controller with
    [req.file] undefined, the read of [req.file.buffer] throws, and the
    answer is 500 with the failure object. Neither answer is a verdict. *)
Theorem frame_route_takes_image_field_only flask (mp : Multer.multipart) fs :
  (forall req f,
      memory_single "image" mp = inr req -> file req = Some f ->
      exists p, p ∈ Multer.files mp /\ Multer.fieldname p = "image" /\
                buffer f = Multer.content p) /\
  (forall p,
      p ∈ Multer.files mp -> Multer.filename p <> "" -> Multer.fieldname p <> "image" ->
      post_frame flask mp fs =
        (Normal {| status := 400; body := Obj [("error", Str "Unexpected field")] |}, fs)) /\
  (Forall (fun p => Multer.filename p = "") (Multer.files mp) ->
      post_frame flask mp fs = (Normal (failure (undefined_property "buffer")), fs)).
Proof.
  split; [|split].
  - intros req f. unfold memory_single, Multer.single.
    destruct (Multer.accept "image" 1 (Multer.files mp)) as [e|ps] eqn:Hacc; [done|].
    intros [= <-]. cbn [file]. apply accept_field in Hacc.
    destruct ps as [|p ps]; [done|]. cbn. intros [= <-].
    apply Forall_cons in Hacc as [[Hp Hn] _]. eauto.
  - intros p Hin Hname Hfield. unfold post_frame, memory_single, Multer.single.
    destruct (accept_unexpected "image" 1 _ p Hin Hname Hfield) as [e ->].
    destruct e. reflexivity.
  - intros Hall. unfold post_frame, memory_single, Multer.single.
    rewrite accept_unnamed by done. cbn -[analyzeSingleFrame].
    by apply analyzeSingleFrame_no_file.
Qed.

Lemma frame_route_takes_image_field_only_witness :
  post_frame Samples.constant_engine Samples.webcam_frame ∅ =
    (Normal {| status := 400; body := Obj [("error", Str "Unexpected field")] |}, ∅) /\
  post_frame Samples.constant_engine Samples.no_file ∅ =
    (Normal (failure (undefined_property "buffer")), ∅).
Proof.
  split.
  - refine (proj1 (proj2 (frame_route_takes_image_field_only
                            Samples.constant_engine Samples.webcam_frame ∅))
              {| Multer.fieldname := "frame"; Multer.filename := "blob";
                 Multer.content := Samples.jpeg |} _ _ _).
    + apply list_elem_of_here.
    + discriminate.
    + discriminate.
  - apply (proj2 (proj2 (frame_route_takes_image_field_only
                           Samples.constant_engine Samples.no_file ∅))).
    constructor.
Defined.

(** C4, as stated, fails: the frame request of the recording page, which
    carries the blob under "frame", is not answered 500 by the controller. *)
Lemma webcam_frame_is_not_answered_500 :
  ~ (forall flask (mp : Multer.multipart) fs p,
        p ∈ Multer.files mp -> Multer.fieldname p <> "image" ->
        exists e, post_frame flask mp fs = (Normal (failure e), fs)).
Proof.
  intros H.
  destruct (H Samples.constant_engine Samples.webcam_frame ∅
              {| Multer.fieldname := "frame"; Multer.filename := "blob";
                 Multer.content := Samples.jpeg |}) as [e He].
  - apply list_elem_of_here.
  - discriminate.
  - vm_compute in He. discriminate He.
Qed.

(** ** The recording page *)

Import Page.

Lemma mode_of_frame_request B m blob : mode_of (frame_request B m blob) = Some m.
Proof. unfold mode_of, frame_request. cbn. apply lookup_insert_eq. Qed.

Lemma mode_of_video_request m name data : mode_of (video_request m name data) = Some m.
Proof. unfold mode_of, video_request. cbn. apply lookup_insert_eq. Qed.

(** A handler leaves the requests sent as they are, or adds one that
    carries the recording mode of the moment. *)
Lemma handle_sent B show e s :
  e <> ClickSquat -> e <> ClickSitting ->
  recordingMode (handle B show e s) = recordingMode s /\
  (sent (handle B show e s) = sent s \/
   exists r, sent (handle B show e s) = (sent s ++ [r])%list /\
             mode_of r = Some (recordingMode s)).
Proof.
  intros Hsq Hsi. destruct e; try contradiction; cbn [handle].
  - split; [reflexivity | left; reflexivity].
  - split; [reflexivity | left; reflexivity].
  - unfold handleStartStopRecording.
    destruct (String.eqb _ _); [auto|].
    destruct (negb _); [destruct granted|]; auto.
  - unfold toggleLiveAnalysis.
    destruct (_ || _); [auto|]. destruct (negb _); auto.
  - unfold removeVideo. destruct (_ && _); auto.
  - unfold tick. destruct (frameAnalysisInterval s); [|auto].
    destruct (_ && _); [|auto]. destruct blob as [b|]; [|auto].
    split; [reflexivity|]. right. eexists. split; [reflexivity|].
    apply mode_of_frame_request.
  - unfold frame_settled. destruct (in_flight s); [auto|].
    destruct r as [data | rd msg].
    + destruct (live_success data) as [err | [fb f]]; [|auto].
      unfold live_failure. destruct (live_error_message _ _ _); auto.
    + unfold live_failure. destruct (live_error_message _ _ _); auto.
  - unfold handleVideoUpload. destruct (_ && _); [|auto].
    split; [reflexivity|]. right. eexists. split; [reflexivity|].
    apply mode_of_video_request.
  - unfold upload_settled. destruct (isAnalyzing s); [|auto].
    destruct r as [[|] [err | result] | msg]; cbn; auto.
    destruct (get_prop result "overall_analysis") as [err | overall]; cbn; auto.
    destruct (truthy overall); auto.
Qed.

Lemma handle_interval B show e s :
  frameAnalysisInterval (handle B show e s) = frameAnalysisInterval s.
Proof.
  destruct e; cbn [handle]; try reflexivity.
  - unfold handleStartStopRecording.
    destruct (String.eqb _ _); [auto|].
    destruct (negb _); [destruct granted|]; auto.
  - unfold toggleLiveAnalysis.
    destruct (_ || _); [auto|]. destruct (negb _); auto.
  - unfold removeVideo. destruct (_ && _); auto.
  - unfold tick. destruct (frameAnalysisInterval s) eqn:Hi; [|auto].
    destruct (_ && _); [|auto]. destruct blob as [b|]; auto.
  - unfold frame_settled. destruct (in_flight s); [auto|].
    destruct r as [data | rd msg].
    + destruct (live_success data) as [err | [fb f]]; [|auto].
      unfold live_failure. destruct (live_error_message _ _ _); auto.
    + unfold live_failure. destruct (live_error_message _ _ _); auto.
  - unfold handleVideoUpload. destruct (_ && _); auto.
  - unfold upload_settled. destruct (isAnalyzing s); [|auto].
    destruct r as [[|] [err | result] | msg]; cbn; auto.
    destruct (get_prop result "overall_analysis") as [err | overall]; cbn; auto.
    destruct (truthy overall); auto.
Qed.

Lemma live_effect_fields prev next :
  recordingMode (live_effect prev next) = recordingMode next /\
  sent (live_effect prev next) = sent next /\
  in_flight (live_effect prev next) = in_flight next /\
  liveFeedback (live_effect prev next) = liveFeedback next /\
  (frameAnalysisInterval (live_effect prev next) = frameAnalysisInterval next \/
   frameAnalysisInterval (live_effect prev next) = None \/
   frameAnalysisInterval (live_effect prev next) = Some POLL_MS).
Proof.
  unfold live_effect. destruct (deps_changed prev next); [|by auto 10].
  destruct (_ && _); cbn; auto 10.
Qed.

Lemma step_ok B show s e : page_ok s -> page_ok (step B show s e).
Proof.
  intros (Hm & Hs & Hi). unfold step, page_ok.
  destruct (live_effect_fields s (handle B show e s)) as (-> & -> & _ & _ & Heff).
  assert (Hint : frameAnalysisInterval (live_effect s (handle B show e s)) = None \/
                 frameAnalysisInterval (live_effect s (handle B show e s)) = Some POLL_MS).
  { destruct Heff as [-> | H]; [|exact H]. by rewrite handle_interval. }
  assert (He : e = ClickSquat \/ e = ClickSitting \/
               (e <> ClickSquat /\ e <> ClickSitting)).
  { destruct e; auto; right; right; split; discriminate. }
  destruct He as [-> | [-> | [Hsq Hsi]]].
  { split; [by left|]. split; [exact Hs | exact Hint]. }
  { split; [by right|]. split; [exact Hs | exact Hint]. }
  destruct (handle_sent B show e s Hsq Hsi) as (-> & [-> | (r & -> & Hr)]).
  - auto.
  - split; [exact Hm|]. split; [|exact Hint].
    apply Forall_app. split; [exact Hs|]. constructor; [|constructor].
    exists (recordingMode s). auto.
Qed.

Lemma initial_ok : page_ok initial.
Proof. split; [by left|]. split; [constructor | by left]. Qed.

Lemma run_ok B show es : page_ok (run B show es).
Proof.
  unfold run. generalize initial_ok. generalize initial.
  induction es as [|e es IH]; intros s Hs; [exact Hs|].
  cbn [fold_left]. apply IH. by apply step_ok.
Qed.

(** C9: the recording mode starts as "squat" and is "squat" or "sitting"
    at every moment; every request the page has sent, frame or video,
    carries one of the two as its mode field; and a request that an event
    adds carries the recording mode of that moment. *)
Theorem page_requests_carry_supported_mode B show es :
  let s := run B show es in
  recordingMode initial = "squat" /\
  (recordingMode s = "squat" \/ recordingMode s = "sitting") /\
  Forall request_ok (sent s) /\
  forall e,
    sent (step B show s e) = sent s \/
    exists r, sent (step B show s e) = (sent s ++ [r])%list /\
              mode_of r = Some (recordingMode s).
Proof.
  intros s. destruct (run_ok B show es) as (Hm & Hs & _).
  split; [reflexivity|]. split; [exact Hm|]. split; [exact Hs|].
  intros e. unfold step.
  destruct (live_effect_fields s (handle B show e s)) as (_ & -> & _).
  assert (He : e = ClickSquat \/ e = ClickSitting \/
               (e <> ClickSquat /\ e <> ClickSitting)).
  { destruct e; auto; right; right; split; discriminate. }
  destruct He as [-> | [-> | [Hsq Hsi]]]; [by left | by left |].
  exact (proj2 (handle_sent B show e s Hsq Hsi)).
Qed.

Lemma tick_sends B show s blob :
  defined (frameAnalysisInterval s) = true -> video_mounted s = true ->
  sent (step B show s (Tick true (Some blob)))
    = (sent s ++ [frame_request B (recordingMode s) blob])%list /\
  in_flight (step B show s (Tick true (Some blob))) = S (in_flight s).
Proof.
  intros Hi Hv. unfold step.
  destruct (live_effect_fields s (handle B show (Tick true (Some blob)) s))
    as (_ & -> & -> & _).
  cbn [handle]. unfold tick.
  destruct (frameAnalysisInterval s); [|discriminate Hi].
  rewrite Hv. split; reflexivity.
Qed.

(** C8 (amended): in live webcam mode the page polls at a fixed period of
    600 ms, and every tick of the interval that finds the video ready and
    gets a blob sends one frame request, whether or not earlier responses
    have returned: the number of requests without response grows by one.
    The page applies no backpressure. *)
Theorem live_polling_has_no_backpressure B show es blob :
  let s := run B show es in
  (frameAnalysisInterval s = None \/ frameAnalysisInterval s = Some 600) /\
  (defined (frameAnalysisInterval s) = true -> video_mounted s = true ->
   sent (step B show s (Tick true (Some blob)))
     = (sent s ++ [frame_request B (recordingMode s) blob])%list /\
   in_flight (step B show s (Tick true (Some blob))) = S (in_flight s)).
Proof.
  intros s. split.
  - exact (proj2 (proj2 (run_ok B show es))).
  - apply tick_sends.
Qed.

Lemma live_polling_has_no_backpressure_witness :
  in_flight (run None Samples.show
               [ClickStartStop (Some 1); Tick true (Some Samples.jpeg)]) = 1 /\
  in_flight (step None Samples.show
               (run None Samples.show
                  [ClickStartStop (Some 1); Tick true (Some Samples.jpeg)])
               (Tick true (Some Samples.jpeg))) = 2.
Proof.
  split; [reflexivity|].
  exact (proj2 (proj2 (live_polling_has_no_backpressure None Samples.show
                         [ClickStartStop (Some 1); Tick true (Some Samples.jpeg)]
                         Samples.jpeg) eq_refl eq_refl)).
Defined.

(** C8, as stated, fails: with the webcam started, two ticks send two
    frames, the second while the response to the first is outstanding. *)
Lemma second_frame_sent_before_first_response :
  ~ (forall B show es ready blob,
        sent (step B show (run B show es) (Tick ready blob)) <> sent (run B show es) ->
        in_flight (run B show es) = 0).
Proof.
  intros H.
  specialize (H None Samples.show
                [ClickStartStop (Some 1); Tick true (Some Samples.jpeg)]
                true (Some Samples.jpeg)).
  assert (Hsent : 1 = 0); [|discriminate Hsent].
  apply H. vm_compute. discriminate.
Qed.

(** C7: the call sites do not hold one convention for a missing score. A
    failed video upload stores the score 0, a failed live frame stores
    [null], and a live frame for which the relay answered stores [null]
    even when the answer carries the score 0; the score line then shows
    the text 0 for the failed upload and nothing for the other two. *)
Theorem missing_score_is_zero_or_null_by_call_site :
  let upload :=
    run None Samples.show
      [ClickUploadTab; SelectVideo "squat.webm" Samples.jpeg "blob:1";
       UploadSettled (FetchFailed "Failed to fetch")] in
  let live :=
    run None Samples.show
      [ClickStartStop (Some 1); Tick true (Some Samples.jpeg);
       FrameSettled (Rejected None "Network Error")] in
  let scored :=
    run None Samples.show
      [ClickStartStop (Some 1); Tick true (Some Samples.jpeg);
       FrameSettled (Fulfilled (Obj [("status", Str "Poor Form"); ("score", Num 0);
                                     ("details", Arr [])]))] in
  fb_score <$> liveFeedback upload = Some (Num 0) /\
  fb_score <$> liveFeedback live = Some Null /\
  fb_score <$> liveFeedback scored = Some Null /\
  score_line (liveFeedback upload) = TextNode (Num 0) /\
  score_line (liveFeedback live) = Nothing /\
  score_line (liveFeedback scored) = Nothing.
Proof. vm_compute. repeat split; reflexivity. Qed.

(** ** The engine *)

Import Engine.






(** ** The engine behind the relay *)

Section Behind.

Variable rule_table : Mode -> list Rule.
Variable k : Z.
Variable Image Keypoints : Type.
Variable detect : Image -> option Keypoints.
Variable angles : Mode -> Keypoints -> list AngleMeasurement.
Variable missing_joint : string -> string.
Variable stride top_n : nat.
Variable decode_image : list Byte.byte -> option Image.
Variable decode_video : list Byte.byte -> option (list Image * Q).
Variable read : string -> list Byte.byte.
Variable error_code : nat.

Local Abbreviation analyzeFrame' :=
  (analyzeFrame rule_table k Image Keypoints detect angles missing_joint).
Local Abbreviation analyzeVideo' :=
  (analyzeVideo rule_table k Image Keypoints detect angles missing_joint stride top_n).
Local Abbreviation run_pass' :=
  (run_pass rule_table k Image Keypoints detect angles missing_joint top_n).
Local Abbreviation engine :=
  (Service.flask rule_table k Image Keypoints detect angles missing_joint
     stride top_n decode_image decode_video read error_code).

(** The frame analyzer is a total function; without detection its verdict
    is the analysis error. *)
Lemma analyzeFrame_no_detection image mode :
  detect image = None ->
  analyzeFrame' image mode =
    {| status := AnalysisError; details := ["No pose detected"]; score := None |}.
Proof. intros H. unfold analyzeFrame. by rewrite H. Qed.

(** The pass over the frames exposes no report while frames are left, and
    the report of the reduction once none is. *)
Lemma run_pass_exposed total rate mode n todo acc :
  let final :=
    finalize top_n total rate
      (fold_left (fun acc f => accumulate acc (analyzeFrame' f mode)) todo acc) in
  exposed Image (run_pass' total rate mode n (Running Image acc todo)) =
    if (length todo <? n)%nat then Some final else None.
Proof.
  revert todo acc. induction n as [|n IH]; intros todo acc final.
  - destruct todo; reflexivity.
  - cbn [run_pass]. destruct todo as [|f todo]; cbn [pass_step].
    + clear IH. subst final. cbn [fold_left length]. 
      replace (0 <? S n)%nat with true by (symmetry; by apply Nat.ltb_lt; lia).
      induction n as [|n IHn]; [reflexivity | exact IHn].
    + rewrite IH. cbn [length fold_left]. subst final.
      replace (S (length todo) <? S n)%nat with (length todo <? n)%nat; [reflexivity|].
      destruct (Nat.ltb_spec (length todo) n), (Nat.ltb_spec (S (length todo)) (S n));
        (reflexivity || lia).
Qed.

(** C3: when the landmark source finds no subject in the image of a
    single-frame request, the frame analyzer returns the verdict with status
    "Analysis Error", the issue "No pose detected" and no score, and the
    caller of the frame route receives it with HTTP 200, inside the success
    envelope of the relay, not as a failure. The request is one that reaches
    the frame analyzer: its image is under the field "image" and decodes,
    and its mode, after the default of the relay, is supported. *)
Theorem no_detection_is_a_verdict (mp : Multer.multipart) fs p image mode :
  Multer.single "image" (Multer.files mp) = inr (Some p) ->
  Service.form_mode (frame_form (Multer.content p) (Multer.fields mp)) = Some mode ->
  decode_image (Multer.content p) = Some image ->
  detect image = None ->
  analyzeFrame' image mode =
    {| status := AnalysisError; details := ["No pose detected"]; score := None |} /\
  post_frame (engine "http://127.0.0.1:5001") mp fs =
    (Normal
       {| Relay.status := 200;
          body := Obj [("success", Bool true);
                       ("feedback",
                        Obj [("status", Str "Analysis Error");
                             ("score", Null);
                             ("details", Arr [Str "No pose detected"])])] |}, fs).
Proof.
  intros Hsingle Hmode Hdec Hdet.
  split; [by apply analyzeFrame_no_detection|].
  unfold post_frame, memory_single. rewrite Hsingle.
  rewrite (analyzeSingleFrame_answer _ _ {| buffer := Multer.content p |}) by reflexivity.
  cbn [buffer req_body].
  unfold Service.flask. cbn [String.eqb String.append Ascii.eqb Bool.eqb].
  unfold Service.frame_endpoint. rewrite Hmode.
  unfold Service.form_bytes, frame_form.
  cbn [form_get String.eqb Ascii.eqb Bool.eqb mbind option_bind].
  rewrite Hdec, analyzeFrame_no_detection by done.
  reflexivity.
Qed.

(** What the engine answers to the form of the video controller. *)
Lemma engine_video_outcome origin url filePath (b : gmap string string) :
  (exists frames rate mode,
      decode_video (read filePath) = Some (frames, rate) /\
      engine origin url (video_form filePath b)
        = Responded 200 (Service.report_json (analyzeVideo' frames rate mode)))
  \/ (exists data, engine origin url (video_form filePath b) = Responded error_code data)
  \/ (exists msg, engine origin url (video_form filePath b) = Unreachable msg).
Proof.
  unfold Service.flask.
  destruct (String.eqb url (origin ++ "/frame")).
  { right. left. unfold Service.frame_endpoint.
    destruct (Service.form_mode _); unfold Service.fail; eauto. }
  destruct (String.eqb url (origin ++ "/analyze")); [|eauto].
  unfold Service.video_endpoint.
  destruct (Service.form_mode _) as [mode|]; [|unfold Service.fail; eauto].
  unfold Service.form_bytes, video_form.
  cbn [form_get String.eqb Ascii.eqb Bool.eqb mbind option_bind].
  destruct (decode_video (read filePath)) as [[frames rate]|];
    [|unfold Service.fail; eauto].
  left. exists frames, rate, mode. auto.
Qed.

(** C6: a whole-video request is answered once, after the pass: the pass
    over the sampled frames exposes no report while frames are left and the
    complete report of [analyzeVideo] afterwards, and the caller of the
    video route receives either that complete report, inside the success
    envelope of the relay, or an error object. The engine answers a failed
    request with a code outside 2xx. *)
Theorem video_report_is_all_or_nothing origin PY fresh (mp : Multer.multipart) fs :
  ~ (200 <= error_code < 300)%nat ->
  (forall frames rate mode n,
      exposed Image (run_pass' (length frames) rate mode n (start Image stride frames)) =
        if (length (sample stride frames) <? n)%nat
        then Some (analyzeVideo' frames rate mode)
        else None) /\
  exists resp fs',
    post_analyze (engine origin) PY fresh mp fs = (Normal resp, fs') /\
    ((exists frames rate mode,
         decode_video (read ("uploads/" ++ fresh)) = Some (frames, rate) /\
         resp = {| Relay.status := 200;
                   body := Obj [("success", Bool true);
                                ("flaskResponse",
                                 Service.report_json (analyzeVideo' frames rate mode))] |})
     \/ (exists e, resp = failure e)
     \/ (exists e, resp = multerErrorHandler e)).
Proof.
  intros Herr. split.
  { intros frames rate mode n. unfold start, analyzeVideo.
    apply run_pass_exposed. }
  unfold post_analyze, bind, disk_single.
  destruct (Multer.single "video" (Multer.files mp)) as [e | [p|]].
  - eexists _, _. split; [reflexivity|]. right. right. eauto.
  - rewrite (analyzeUploadedVideo_answer _ _ _ {| path := "uploads/" ++ fresh |});
      [|reflexivity|apply elem_of_union; right; by apply elem_of_singleton].
    cbn [path req_body].
    destruct (engine_video_outcome origin (env_concat PY "/analyze")
                ("uploads/" ++ fresh) (Multer.fields mp))
      as [(frames & rate & mode & Hdec & ->) | [(data & ->) | (msg & ->)]].
    + replace (bool_decide (200 <= 200 < 300)%nat) with true
        by (symmetry; apply bool_decide_eq_true; lia).
      eexists _, _. split; [reflexivity|]. left. eauto.
    + replace (bool_decide (200 <= error_code < 300)%nat) with false
        by (symmetry; by apply bool_decide_eq_false).
      eexists _, _. split; [reflexivity|]. right. left. eauto.
    + eexists _, _. split; [reflexivity|]. right. left. eauto.
  - rewrite analyzeUploadedVideo_no_file by reflexivity.
    eexists _, _. split; [reflexivity|]. right. left. eauto.
Qed.

End Behind.

Lemma no_detection_is_a_verdict_witness :
  post_frame
    (Service.flask Samples.rules 20 (list Byte.byte) (list AngleMeasurement)
       Samples.detect Samples.angles Samples.missing_joint 1 5
       Samples.decode_image Samples.decode_video Samples.read 400
       "http://127.0.0.1:5001")
    Samples.empty_frame ∅ =
    (Normal
       {| Relay.status := 200;
          body := Obj [("success", Bool true);
                       ("feedback",
                        Obj [("status", Str "Analysis Error");
                             ("score", Null);
                             ("details", Arr [Str "No pose detected"])])] |}, ∅).
Proof.
  exact (proj2 (no_detection_is_a_verdict Samples.rules 20 (list Byte.byte)
                  (list AngleMeasurement) Samples.detect Samples.angles
                  Samples.missing_joint 1 5 Samples.decode_image
                  Samples.decode_video Samples.read 400 Samples.empty_frame ∅
                  {| Multer.fieldname := "image"; Multer.filename := "frame.jpg";
                     Multer.content := [] |}
                  [] Squat eq_refl eq_refl eq_refl eq_refl)).
Defined.

Lemma video_report_is_all_or_nothing_witness :
  let frames := [Samples.jpeg; Samples.jpeg; []] in
  let pass n :=
    exposed (list Byte.byte)
      (run_pass Samples.rules 20 (list Byte.byte) (list AngleMeasurement)
         Samples.detect Samples.angles Samples.missing_joint 5
         3 30%Q Squat n (start (list Byte.byte) 1 frames)) in
  let report :=
    analyzeVideo Samples.rules 20 (list Byte.byte) (list AngleMeasurement)
      Samples.detect Samples.angles Samples.missing_joint 1 5 frames 30%Q Squat in
  pass 3 = None /\ pass 4 = Some report /\
  exists resp fs',
    post_analyze
      (Service.flask Samples.rules 20 (list Byte.byte) (list AngleMeasurement)
         Samples.detect Samples.angles Samples.missing_joint 1 5
         Samples.decode_image Samples.decode_video Samples.read 400
         "http://flask-backend:5001")
      (Some "http://flask-backend:5001") "3f9a" Samples.video_body ∅
      = (Normal resp, fs') /\
    (Relay.status resp = 200 \/ Relay.status resp = 500 \/ Relay.status resp = 400).
Proof.
  intros frames pass report.
  destruct (video_report_is_all_or_nothing Samples.rules 20 (list Byte.byte)
              (list AngleMeasurement) Samples.detect Samples.angles
              Samples.missing_joint 1 5 Samples.decode_image Samples.decode_video
              Samples.read 400
              "http://flask-backend:5001" (Some "http://flask-backend:5001")
              "3f9a" Samples.video_body ∅ ltac:(lia))
    as (Hpass & resp & fs' & Hrun & Hcases).
  split; [exact (Hpass frames 30%Q Squat 3)|].
  split; [exact (Hpass frames 30%Q Squat 4)|].
  exists resp, fs'. split; [exact Hrun|].
  destruct Hcases as [(fr & rate & mode & _ & ->) | [(e & ->) | (e & ->)]]; auto.
Defined.

(** * Further properties *)

(** ** The exercise routes *)

(** X1: an exercise handler that gets neither an upload nor a non-empty
    [imagePath] answers 400 "No image provided"; it does not consult the
    engine and leaves the disk as it is. *)
Theorem exercise_without_image_is_refused flask endpoint (req : request disk_file) fs :
  file req = None ->
  (req_body req !! "imagePath" = None \/ req_body req !! "imagePath" = Some "") ->
  analyze_exercise flask endpoint req fs =
    (Normal {| Relay.status := 400; body := Obj [("error", Str "No image provided")] |}, fs).
Proof.
  intros Hf Hp. unfold analyze_exercise, try_catch, bind. rewrite Hf.
  destruct Hp as [-> | ->]; reflexivity.
Qed.

Lemma exercise_without_image_is_refused_witness :
  analyze_squat Samples.constant_engine Scenarios.nothing {["temp/77c1"]} =
    (Normal {| Relay.status := 400; body := Obj [("error", Str "No image provided")] |},
     {["temp/77c1"]}).
Proof.
  apply (exercise_without_image_is_refused Samples.constant_engine
           "http://localhost:5001/analyze/squat" Scenarios.nothing).
  - reflexivity.
  - left. reflexivity.
Defined.



(** X3: when the upload of an exercise request is not on the disk, the
    handler sends no answer at all, whatever the engine does: the deletion
    throws, in the [try] after a success or in the [catch] after a failure,
    and the [catch] throws again. *)
Theorem exercise_with_lost_upload_never_answers
  flask endpoint (req : request disk_file) f fs :
  file req = Some f -> path f ∉ fs ->
  analyze_exercise flask endpoint req fs =
    (Abrupt {| class := SystemError;
               message := "ENOENT: no such file or directory, unlink '"
                            ++ path f ++ "'" |}, fs).
Proof.
  intros Hf Hout. unfold analyze_exercise, try_catch, bind. rewrite Hf.
  cbn [ret]. rewrite axios_post_outcome. unfold unlinkSync, engine_ok.
  destruct (flask _ _) as [code data | msg];
    [destruct (bool_decide (200 <= code < 300)%nat)|];
    (destruct (decide (path f ∈ fs)) as [|Hno]; [contradiction|]);
    cbv beta iota delta [bind unlinkSync ret];
    try (destruct (decide (path f ∈ fs)); [contradiction|]);
    reflexivity.
Qed.

Lemma exercise_with_lost_upload_never_answers_witness :
  fst (analyze_squat Samples.constant_engine Samples.exercise_upload ∅) =
    Abrupt {| class := SystemError;
              message := "ENOENT: no such file or directory, unlink 'temp/77c1'" |}.
Proof.
  unfold analyze_squat.
  rewrite (exercise_with_lost_upload_never_answers Samples.constant_engine
             "http://localhost:5001/analyze/squat" Samples.exercise_upload
             {| path := "temp/77c1" |} ∅ eq_refl).
  - reflexivity.
  - apply not_elem_of_empty.
Defined.

(** ** The video controller *)





(** ** The routes and the disk *)

Lemma stored_then_deleted (p : string) (fs : gset string) :
  p ∉ fs -> (fs ∪ {[p]}) ∖ {[p]} = fs.
Proof.
  intros Hout. apply set_eq. intros x.
  rewrite elem_of_difference, elem_of_union, elem_of_singleton. split.
  - intros [[Hx | Hx] Hne]; [exact Hx | contradiction].
  - intros Hx. split; [by left|]. intros ->. contradiction.
Qed.

Lemma stored_is_present (p : string) (fs : gset string) : p ∈ fs ∪ {[p]}.
Proof. apply elem_of_union. right. by apply elem_of_singleton. Qed.

Lemma analyze_exercise_answer flask endpoint (req : request disk_file) f fs :
  file req = Some f -> path f ∈ fs ->
  exists resp, analyze_exercise flask endpoint req fs = (Normal resp, fs ∖ {[path f]}).
Proof.
  intros Hf Hin. unfold analyze_exercise, try_catch, bind.
  rewrite Hf. cbn [ret]. rewrite axios_post_outcome. unfold engine_ok, unlinkSync.
  destruct (flask _ _) as [code data | msg].
  - destruct (bool_decide (200 <= code < 300)%nat);
      destruct (decide (path f ∈ fs)); try contradiction; eexists; reflexivity.
  - destruct (decide (path f ∈ fs)); try contradiction; eexists; reflexivity.
Qed.

(** X6: the video route stores the upload under "uploads/" and, for a
    name that is new on the disk, leaves the disk as it found it when the
    engine answered with success, and with exactly the upload added when
    the request to the engine failed. *)
Theorem video_route_leaves_upload_on_failure
  flask PY fresh (mp : Multer.multipart) fs p :
  Multer.single "video" (Multer.files mp) = inr (Some p) ->
  "uploads/" ++ fresh ∉ fs ->
  snd (post_analyze flask PY fresh mp fs) =
    if engine_ok (flask (env_concat PY "/analyze")
                    (video_form ("uploads/" ++ fresh) (Multer.fields mp)))
    then fs
    else fs ∪ {["uploads/" ++ fresh]}.
Proof.
  intros Hsingle Hnew. unfold post_analyze, bind, disk_single. rewrite Hsingle.
  rewrite (analyzeUploadedVideo_answer _ _ _ {| path := "uploads/" ++ fresh |})
    by (reflexivity || apply stored_is_present).
  cbn [path req_body]. unfold engine_ok.
  destruct (flask _ _) as [code data | msg]; [|reflexivity].
  destruct (bool_decide (200 <= code < 300)%nat); [|reflexivity].
  cbn [snd]. by apply stored_then_deleted.
Qed.

Lemma video_route_leaves_upload_on_failure_witness :
  snd (post_analyze Samples.dead_engine None "3f9a" Samples.video_body ∅)
    = ∅ ∪ {["uploads/3f9a"]} /\
  snd (post_analyze Samples.constant_engine None "3f9a" Samples.video_body ∅) = ∅.
Proof.
  split.
  - exact (video_route_leaves_upload_on_failure Samples.dead_engine None "3f9a"
             Samples.video_body ∅ _ eq_refl (not_elem_of_empty _)).
  - exact (video_route_leaves_upload_on_failure Samples.constant_engine None "3f9a"
             Samples.video_body ∅ _ eq_refl (not_elem_of_empty _)).
Defined.

(** X7: the two exercise routes store the upload under "temp/" and, for a
    name that is new on the disk, answer and leave the disk as they found
    it, whether the engine succeeds or fails. *)
Theorem exercise_routes_leave_no_file
  flask fresh (mp : Multer.multipart) fs p :
  Multer.single "frame" (Multer.files mp) = inr (Some p) ->
  "temp/" ++ fresh ∉ fs ->
  (exists resp, post_analyze_squat flask fresh mp fs = (Normal resp, fs)) /\
  (exists resp, post_analyze_sit flask fresh mp fs = (Normal resp, fs)).
Proof.
  intros Hsingle Hnew.
  unfold post_analyze_squat, post_analyze_sit, analyze_squat, analyze_sit,
    bind, disk_single.
  rewrite Hsingle. split.
  - destruct (analyze_exercise_answer flask "http://localhost:5001/analyze/squat"
                {| file := Some {| path := "temp/" ++ fresh |};
                   req_body := Multer.fields mp |}
                {| path := "temp/" ++ fresh |} (fs ∪ {["temp/" ++ fresh]})
                eq_refl (stored_is_present _ _)) as [resp ->].
    exists resp. cbn [path]. by rewrite stored_then_deleted.
  - destruct (analyze_exercise_answer flask "http://localhost:5001/analyze/sit"
                {| file := Some {| path := "temp/" ++ fresh |};
                   req_body := Multer.fields mp |}
                {| path := "temp/" ++ fresh |} (fs ∪ {["temp/" ++ fresh]})
                eq_refl (stored_is_present _ _)) as [resp ->].
    exists resp. cbn [path]. by rewrite stored_then_deleted.
Qed.

Lemma exercise_routes_leave_no_file_witness :
  exists resp,
    post_analyze_squat Samples.dead_engine "77c1" Scenarios.exercise_body ∅
      = (Normal resp, ∅).
Proof.
  exact (proj1 (exercise_routes_leave_no_file Samples.dead_engine "77c1"
                  Scenarios.exercise_body ∅ _ eq_refl (not_elem_of_empty _))).
Defined.


Lemma accept_too_many name n ps :
  n < length (List.filter (fun p => negb (String.eqb (Multer.filename p) "")) ps) ->
  exists e, Multer.accept name n ps = inl e.
Proof.
  revert n. induction ps as [|p ps IH]; intros n; cbn [Multer.accept List.filter].
  - cbn. lia.
  - destruct (String.eqb (Multer.filename p) "") eqn:Hp; cbn [negb].
    + apply IH.
    + cbn [length]. intros Hn.
      destruct (String.eqb (Multer.fieldname p) name); [|eauto].
      destruct n as [|n]; [eauto|].
      destruct (IH n ltac:(lia)) as [e ->]. eauto.
Qed.

(** X9: no route takes more than one file. A body with two or more file
    parts that carry a file name is refused by each of the four routes with
    400 "Unexpected field", without a file stored and without a request to
    the engine. *)
Theorem second_file_is_refused flask PY fresh (mp : Multer.multipart) fs :
  2 <= length (List.filter (fun p => negb (String.eqb (Multer.filename p) ""))
                 (Multer.files mp)) ->
  let refusal :=
    (Normal {| Relay.status := 400; body := Obj [("error", Str "Unexpected field")] |},
     fs) in
  post_analyze flask PY fresh mp fs = refusal /\
  post_frame flask mp fs = refusal /\
  post_analyze_squat flask fresh mp fs = refusal /\
  post_analyze_sit flask fresh mp fs = refusal.
Proof.
  intros Htwo refusal. subst refusal.
  unfold post_analyze, post_frame, post_analyze_squat, post_analyze_sit,
    bind, disk_single, memory_single, Multer.single.
  destruct (accept_too_many "video" 1 _ Htwo) as [[?] ->].
  destruct (accept_too_many "image" 1 _ Htwo) as [[?] ->].
  destruct (accept_too_many "frame" 1 _ Htwo) as [[?] ->].
  repeat split; reflexivity.
Qed.

Lemma second_file_is_refused_witness :
  post_analyze Samples.constant_engine None "3f9a" Scenarios.two_videos ∅ =
    (Normal {| Relay.status := 400; body := Obj [("error", Str "Unexpected field")] |}, ∅).
Proof.
  exact (proj1 (second_file_is_refused Samples.constant_engine None "3f9a"
                  Scenarios.two_videos ∅ ltac:(cbn; lia))).
Defined.

(** ** The recording page, further *)

Lemma deps_changed_same s : deps_changed s s = false.
Proof.
  unfold deps_changed.
  rewrite Bool.eqb_reflx, String.eqb_refl, bool_decide_eq_true_2 by reflexivity.
  reflexivity.
Qed.

Lemma live_effect_same s s' :
  isLiveAnalysisActive s' = isLiveAnalysisActive s ->
  liveVideoStream s' = liveVideoStream s ->
  recordingMode s' = recordingMode s ->
  live_effect s s' = s'.
Proof.
  intros Ha Hs Hm. unfold live_effect, deps_changed. rewrite Ha, Hs, Hm.
  rewrite Bool.eqb_reflx, String.eqb_refl, bool_decide_eq_true_2 by reflexivity.
  reflexivity.
Qed.

(** What a handler does to the three fields of the live analysis: nothing,
    a start, a stop, or a toggle while recording. *)
Lemma handle_live B show e s :
  let s' := handle B show e s in
  (isLiveAnalysisActive s' = isLiveAnalysisActive s /\
   isRecording s' = isRecording s /\ liveVideoStream s' = liveVideoStream s) \/
  (isRecording s = false /\ isLiveAnalysisActive s' = true /\
   isRecording s' = true /\ defined (liveVideoStream s') = true) \/
  (isLiveAnalysisActive s' = false /\ isRecording s' = false /\
   liveVideoStream s' = None) \/
  (isRecording s = true /\ isRecording s' = true /\
   liveVideoStream s' = liveVideoStream s).
Proof.
  destruct e; cbn [handle]; try (left; repeat split; reflexivity).
  - unfold handleStartStopRecording.
    destruct (String.eqb _ _); [left; by repeat split|].
    destruct (isRecording s) eqn:Hr; cbn [negb].
    + right. right. left. by repeat split.
    + destruct granted; [|left; by repeat split].
      right. left. by repeat split.
  - unfold toggleLiveAnalysis.
    destruct (String.eqb _ _); cbn [orb]; [left; by repeat split|].
    destruct (isRecording s) eqn:Hr; cbn [negb]; [|left; by repeat split].
    right. right. right.
    destruct (negb (isLiveAnalysisActive s)); by repeat split.
  - unfold removeVideo. destruct (_ && _); left; by repeat split.
  - unfold tick. destruct (frameAnalysisInterval s); [|left; by repeat split].
    destruct (_ && _); [|left; by repeat split].
    destruct blob; left; by repeat split.
  - unfold frame_settled. destruct (in_flight s); [left; by repeat split|].
    destruct r as [data | rd msg].
    + destruct (live_success data) as [err | [fb f]]; [|left; by repeat split].
      unfold live_failure. destruct (live_error_message _ _ _); left; by repeat split.
    + unfold live_failure. destruct (live_error_message _ _ _); left; by repeat split.
  - unfold handleVideoUpload. destruct (_ && _); left; by repeat split.
  - unfold upload_settled. destruct (isAnalyzing s); [|left; by repeat split].
    destruct r as [[|] [err | result] | msg]; cbn; try (left; by repeat split).
    destruct (get_prop result "overall_analysis") as [err | overall]; cbn;
      [left; by repeat split|].
    destruct (truthy overall); left; by repeat split.
Qed.

Lemma live_effect_live prev next :
  isLiveAnalysisActive (live_effect prev next) = isLiveAnalysisActive next /\
  isRecording (live_effect prev next) = isRecording next /\
  liveVideoStream (live_effect prev next) = liveVideoStream next.
Proof.
  unfold live_effect. destruct (deps_changed prev next); [|by auto].
  destruct (_ && _); cbn; auto.
Qed.

Lemma live_effect_interval prev next :
  defined (frameAnalysisInterval (live_effect prev next)) = true ->
  (deps_changed prev next = false /\
   defined (frameAnalysisInterval next) = true) \/
  (isLiveAnalysisActive next = true /\ defined (liveVideoStream next) = true).
Proof.
  unfold live_effect. destruct (deps_changed prev next); [|by auto].
  destruct (isLiveAnalysisActive next); cbn [andb]; [|cbn; discriminate].
  destruct (video_mounted next); cbn [andb]; [|cbn; discriminate].
  destruct (defined (liveVideoStream next)); cbn; [auto | discriminate].
Qed.

Lemma deps_unchanged prev next :
  deps_changed prev next = false ->
  isLiveAnalysisActive next = isLiveAnalysisActive prev /\
  liveVideoStream next = liveVideoStream prev.
Proof.
  unfold deps_changed. intros H. apply negb_false_iff in H.
  apply andb_prop in H as [H _]. apply andb_prop in H as [Ha Hs].
  apply Bool.eqb_prop in Ha. apply bool_decide_eq_true in Hs. auto.
Qed.

Lemma step_live_ok B show s e : Wire.live_ok s -> Wire.live_ok (step B show s e).
Proof.
  intros (Hi & Ha & Hr). unfold step, Wire.live_ok.
  destruct (live_effect_live s (handle B show e s)) as (-> & -> & ->).
  pose proof (handle_live B show e s) as Hcases. cbv zeta in Hcases.
  split; [|split].
  - intros Hint. apply live_effect_interval in Hint as [[Hsame Hint] | Hcond]; [|exact Hcond].
    rewrite handle_interval in Hint.
    destruct (deps_unchanged _ _ Hsame) as [-> ->]. by apply Hi.
  - destruct Hcases as [(-> & -> & _) | [(_ & _ & -> & _) | [(-> & _) | (Hrec & -> & _)]]];
      [exact Ha | reflexivity | discriminate | reflexivity].
  - destruct Hcases as [(_ & -> & ->) | [(_ & _ & -> & ->) | [(_ & -> & ->) | (Hrec & -> & ->)]]];
      [exact Hr | reflexivity | reflexivity | by rewrite <- Hr].
Qed.

Lemma run_live_ok B show es : Wire.live_ok (run B show es).
Proof.
  unfold run.
  assert (H0 : Wire.live_ok initial).
  { split; [discriminate|]. split; [discriminate | reflexivity]. }
  revert H0. generalize initial.
  induction es as [|e es IH]; intros s Hs; [exact Hs|].
  cbn [fold_left]. apply IH. by apply step_live_ok.
Qed.

(** X10: at every moment of the page an interval is set only while the
    live analysis is active and a stream is held, the live analysis is
    active only while recording, and the page records exactly while it
    holds a stream. So once the analysis is paused or the recording
    stopped, a tick of the timer changes nothing and sends nothing. *)
Theorem page_polls_only_while_live B show es :
  let s := run B show es in
  Wire.live_ok s /\
  forall ready blob,
    isLiveAnalysisActive s = false \/ liveVideoStream s = None ->
    step B show s (Tick ready blob) = s.
Proof.
  intros s. pose proof (run_live_ok B show es) as Hok. split; [exact Hok|].
  intros ready blob Hoff. destruct Hok as (Hi & _ & _).
  assert (Hnone : frameAnalysisInterval s = None).
  { fold s in Hi. destruct (frameAnalysisInterval s) eqn:Hint; [|reflexivity].
    destruct (Hi eq_refl) as [Hact Hstream].
    destruct Hoff as [Hoff | Hoff]; [congruence|].
    rewrite Hoff in Hstream. discriminate Hstream. }
  unfold step. cbn [handle]. unfold tick. rewrite Hnone. apply live_effect_same; reflexivity.
Qed.

Lemma live_effect_upload prev next :
  isAnalyzing (live_effect prev next) = isAnalyzing next /\
  analysisResults (live_effect prev next) = analysisResults next.
Proof.
  unfold live_effect. destruct (deps_changed prev next); [|by auto].
  destruct (_ && _); cbn; auto.
Qed.

(** X11: stopping the recording does not discard a frame request that is
    still outstanding. The stop clears the live feedback, and the late
    failure of the frame then fills it again with an analysis error, while
    the page is no longer recording. *)
Theorem response_after_stop_is_still_shown B show s n msg :
  isRecording s = true -> String.eqb (activeTab s) "upload" = false ->
  in_flight s = S n ->
  let stopped := step B show s (ClickStartStop None) in
  let late := step B show stopped (FrameSettled (Rejected None msg)) in
  isRecording stopped = false /\ liveFeedback stopped = None /\
  isRecording late = false /\
  liveFeedback late =
    Some {| fb_status := Str "Analysis Error";
            fb_details := Arr [JS.or (Str msg) (Str "Unable to analyze current frame")];
            fb_score := Null |}.
Proof.
  intros Hrec Htab Hfl stopped late.
  assert (Hstop : handle B show (ClickStartStop None) s =
                  setFeedback (Arr [])
                    (setLiveFeedback None
                       (setIsRecording false
                          (setLiveVideoStream None (setIsLiveAnalysisActive false s))))).
  { cbn [handle]. unfold handleStartStopRecording. by rewrite Htab, Hrec. }
  assert (H1 : isRecording stopped = false).
  { subst stopped. unfold step.
    destruct (live_effect_live s (handle B show (ClickStartStop None) s)) as (_ & -> & _).
    by rewrite Hstop. }
  assert (H2 : liveFeedback stopped = None).
  { subst stopped. unfold step.
    destruct (live_effect_fields s (handle B show (ClickStartStop None) s))
      as (_ & _ & _ & -> & _).
    by rewrite Hstop. }
  assert (H3 : in_flight stopped = S n).
  { subst stopped. unfold step.
    destruct (live_effect_fields s (handle B show (ClickStartStop None) s))
      as (_ & _ & -> & _).
    by rewrite Hstop. }
  split; [exact H1|]. split; [exact H2|].
  subst late. unfold step.
  destruct (live_effect_live stopped (handle B show (FrameSettled (Rejected None msg)) stopped))
    as (_ & -> & _).
  destruct (live_effect_fields stopped (handle B show (FrameSettled (Rejected None msg)) stopped))
    as (_ & _ & _ & -> & _).
  cbn [handle]. unfold frame_settled. rewrite H3.
  split; [exact H1 | reflexivity].
Qed.

Lemma response_after_stop_is_still_shown_witness :
  liveFeedback
    (step (Some "http://localhost:5000") Samples.show
       (step (Some "http://localhost:5000") Samples.show Scenarios.recording_page
          (ClickStartStop None))
       (FrameSettled (Rejected None "timeout of 0ms exceeded"))) =
    Some {| fb_status := Str "Analysis Error";
            fb_details := Arr [Str "timeout of 0ms exceeded"];
            fb_score := Null |}.
Proof.
  exact (proj2 (proj2 (proj2
           (response_after_stop_is_still_shown (Some "http://localhost:5000")
              Samples.show Scenarios.recording_page 0 "timeout of 0ms exceeded"
              eq_refl eq_refl eq_refl)))).
Defined.

(** X12: every frame of the live analysis is refused. The page appends
    the blob under "frame"; for every engine the frame route answers that
    request with 400 "Unexpected field", and when that answer arrives the
    page shows the status "Analysis Error" with the detail "Unexpected
    field" and no score. *)
Theorem live_frames_are_always_refused flask B show s blob fs :
  defined (frameAnalysisInterval s) = true -> video_mounted s = true ->
  let frame := frame_request B (recordingMode s) blob in
  let sending := step B show s (Tick true (Some blob)) in
  let answer :=
    {| Relay.status := 400; body := Obj [("error", Str "Unexpected field")] |} in
  sent sending = (sent s ++ [frame])%list /\
  post_frame flask (multipart_of frame) fs = (Normal answer, fs) /\
  liveFeedback (step B show sending (FrameSettled (Wire.axios_settle answer))) =
    Some {| fb_status := Str "Analysis Error";
            fb_details := Arr [Str "Unexpected field"];
            fb_score := Null |}.
Proof.
  intros Hi Hv frame sending answer.
  destruct (tick_sends B show s blob Hi Hv) as [Hsent Hfl].
  split; [exact Hsent|]. split; [reflexivity|].
  unfold step at 1.
  destruct (live_effect_fields sending
              (handle B show (FrameSettled (Wire.axios_settle answer)) sending))
    as (_ & _ & _ & -> & _).
  cbn [handle]. unfold frame_settled. fold sending in Hfl. rewrite Hfl.
  unfold Wire.axios_settle, answer. cbn [Relay.status Relay.body].
  rewrite bool_decide_eq_false_2 by lia. reflexivity.
Qed.

Lemma live_frames_are_always_refused_witness :
  post_frame Samples.constant_engine
    (multipart_of (frame_request (Some "http://localhost:5000") "squat" Samples.jpeg)) ∅ =
    (Normal {| Relay.status := 400; body := Obj [("error", Str "Unexpected field")] |}, ∅).
Proof.
  exact (proj1 (proj2
           (live_frames_are_always_refused Samples.constant_engine
              (Some "http://localhost:5000") Samples.show Scenarios.recording_page
              Samples.jpeg ∅ eq_refl eq_refl))).
Defined.

(** X13: a verdict that the frame controller answers with success does
    not reach the display. The page reads status, details and score at the
    top of the body, where the relay has put its envelope: the status shown
    is "Analyzing...", the score is [null], and the details are the whole
    result of the engine. *)
Theorem relay_success_shows_no_verdict
  flask (req : request memory_file) f fs code data :
  file req = Some f ->
  flask "http://127.0.0.1:5001/frame" (frame_form (buffer f) (req_body req))
    = Responded code data ->
  (200 <= code < 300)%nat ->
  let answer :=
    {| Relay.status := 200;
       body := Obj [("success", Bool true); ("feedback", data)] |} in
  analyzeSingleFrame flask req fs = (Normal answer, fs) /\
  Wire.axios_settle answer = Fulfilled (body answer) /\
  live_success (body answer) =
    inr ({| fb_status := Str "Analyzing...";
            fb_details := JS.or data (Arr []);
            fb_score := Null |},
         JS.or data (Arr [])).
Proof.
  intros Hf Hfl Hc answer. split; [|split].
  - rewrite (analyzeSingleFrame_answer _ _ f) by done. rewrite Hfl.
    by rewrite bool_decide_eq_true_2.
  - unfold Wire.axios_settle, answer. cbn [Relay.status Relay.body].
    by rewrite bool_decide_eq_true_2 by lia.
  - unfold live_success, answer. cbn. unfold JS.or.
    destruct (truthy data) eqn:Ht; cbn; rewrite ?Ht; reflexivity.
Qed.

Lemma relay_success_shows_no_verdict_witness :
  live_success (Obj [("success", Bool true); ("feedback", Samples.sample_report)]) =
    inr ({| fb_status := Str "Analyzing...";
            fb_details := Samples.sample_report;
            fb_score := Null |},
         Samples.sample_report).
Proof.
  exact (proj2 (proj2
           (relay_success_shows_no_verdict Samples.constant_engine
              {| file := Some {| buffer := Samples.jpeg |}; req_body := ∅ |}
              {| buffer := Samples.jpeg |} ∅ 200 Samples.sample_report
              eq_refl eq_refl ltac:(lia)))).
Defined.

(** X14: however a video upload fails (the fetch is rejected, the
    response is not ok, its body is not JSON, or its JSON is [null]), the
    page ends the analysis and shows the status "Analysis Error" with one
    detail, a text that is never empty, and the score 0. *)
Theorem failed_upload_shows_error_and_score_zero B show s r :
  isAnalyzing s = true ->
  (exists m, r = FetchFailed m) \/ (exists j, r = Fetched false j) \/
  (exists e, r = Fetched true (inl e)) \/ r = Fetched true (inr Null) ->
  let s' := step B show s (UploadSettled r) in
  isAnalyzing s' = false /\
  exists text,
    text <> "" /\
    liveFeedback s' =
      Some {| fb_status := Str "Analysis Error";
              fb_details := Arr [Str text];
              fb_score := Num 0 |}.
Proof.
  intros Han Hfail s'. subst s'. unfold step.
  destruct (live_effect_upload s (handle B show (UploadSettled r) s)) as (-> & _).
  destruct (live_effect_fields s (handle B show (UploadSettled r) s))
    as (_ & _ & _ & -> & _).
  cbn [handle]. unfold upload_settled. rewrite Han.
  assert (Hcatch : forall m s0,
            exists text, text <> "" /\
              liveFeedback (setIsAnalyzing false (upload_failure m s0)) =
                Some {| fb_status := Str "Analysis Error";
                        fb_details := Arr [Str text];
                        fb_score := Num 0 |}).
  { intros m s0. unfold upload_failure, JS.or, truthy.
    destruct (String.eqb_spec m "") as [->|Hm]; cbn [negb].
    - eexists. split; [|reflexivity]. discriminate.
    - exists m. split; [exact Hm | reflexivity]. }
  destruct Hfail as [[m ->] | [[j ->] | [[e ->] | ->]]]; (split; [reflexivity|]).
  - apply Hcatch.
  - apply Hcatch.
  - apply Hcatch.
  - cbn [get_prop]. apply Hcatch.
Qed.

Lemma failed_upload_shows_error_and_score_zero_witness :
  isAnalyzing
    (run None Samples.show
       [ClickUploadTab; SelectVideo "squat.webm" Samples.jpeg "blob:1";
        UploadSettled (Fetched false (inr Samples.sample_report))]) = false.
Proof.
  exact (proj1
           (failed_upload_shows_error_and_score_zero None Samples.show
              (run None Samples.show
                 [ClickUploadTab; SelectVideo "squat.webm" Samples.jpeg "blob:1"])
              (Fetched false (inr Samples.sample_report)) eq_refl
              (or_intror (or_introl (ex_intro _ _ eq_refl))))).
Defined.

(** ** The recorder component *)

Lemma recorder_step_ok s e : Recorder.recorder_ok s -> Recorder.recorder_ok (Recorder.step s e).
Proof.
  intros (Ht & Htc & Hrec). unfold Recorder.recorder_ok.
  destruct e; cbn [Recorder.step].
  - by repeat split.
  - destruct (_ && _) eqn:Hbtn; [|by repeat split].
    apply andb_prop in Hbtn as [Hbtn _]. apply andb_prop in Hbtn as [Hcap _].
    apply negb_true_iff in Hcap.
    unfold Recorder.startRecording.
    destruct stream; cbn [negb]; [destruct supported; cbn [negb]|]; cbn.
    + repeat split; unfold Recorder.maxDuration; lia.
    + rewrite Htc, Hcap. repeat split; [exact Ht | discriminate].
    + rewrite Htc, Hcap. repeat split; [exact Ht | discriminate].
  - unfold Recorder.timerTick. destruct (Recorder.timer s) eqn:Hti;
      [|rewrite ?Hti; by repeat split].
    destruct (Nat.leb_spec Recorder.maxDuration (Recorder.recordingTime s)); cbn.
    + repeat split; [lia | discriminate].
    + rewrite ?Hti. repeat split; [lia | exact Htc | exact Hrec].
  - unfold Recorder.handleDataAvailable.
    destruct (Recorder.mediaRecorder s) eqn:Hm; [|rewrite ?Hm; by repeat split].
    destruct (0 <? _)%nat; cbn; rewrite ?Hm; by repeat split.
  - unfold Recorder.clickStop. destruct (Recorder.capturing s) eqn:Hc;
      [|rewrite ?Hc; by repeat split].
    cbn. repeat split; [exact Ht | discriminate].
  - unfold Recorder.saveTimeout. destruct (Recorder.scheduled s) as [|c rest];
      [by repeat split|].
    unfold Recorder.handleSave. destruct (Recorder.seen_chunks c); cbn; by repeat split.
  - unfold Recorder.uploadDone. destruct (Recorder.awaiting s); cbn; by repeat split.
Qed.

Lemma recorder_run_ok_from es s :
  Recorder.recorder_ok s -> Recorder.recorder_ok (fold_left Recorder.step es s).
Proof.
  revert s. induction es as [|e es IH]; intros s Hs; [exact Hs|].
  cbn [fold_left]. apply IH. by apply recorder_step_ok.
Qed.

(** X15: at every moment of the recorder the recording time is at most
    the maximum of 30 seconds, the timer runs exactly while the component
    captures, and while it captures the media recorder is recording. *)
Theorem recorder_time_never_exceeds_maximum es :
  let s := Recorder.run es in
  Recorder.recordingTime s <= 30 /\
  Recorder.timer s = Recorder.capturing s /\
  (Recorder.capturing s = true -> Recorder.mediaRecorder s = Some true).
Proof.
  intros s. apply recorder_run_ok_from.
  split; [cbn; lia|]. split; [reflexivity | discriminate].
Qed.




Lemma recorder_step_chunks s e : Recorder.chunks_ok s -> Recorder.chunks_ok (Recorder.step s e).
Proof.
  intros (Hc & Hs & Hu). unfold Recorder.chunks_ok.
  destruct e; cbn [Recorder.step].
  - (repeat split; assumption).
  - destruct (_ && _); [|(repeat split; assumption)].
    unfold Recorder.startRecording.
    destruct stream; cbn [negb]; [destruct supported; cbn [negb]|]; cbn;
      repeat split; auto.
  - unfold Recorder.timerTick. destruct (Recorder.timer s); [|(repeat split; assumption)].
    destruct (_ <=? _)%nat; cbn; (repeat split; assumption).
  - unfold Recorder.handleDataAvailable.
    destruct (Recorder.mediaRecorder s); [|(repeat split; assumption)].
    destruct (Nat.ltb_spec 0 (length data)) as [Hlen|_]; [|(repeat split; assumption)].
    cbn. repeat split; auto. apply Forall_app. split; [exact Hc|].
    constructor; [|constructor]. unfold Recorder.sized. intros ->. cbn in Hlen. lia.
  - unfold Recorder.clickStop. destruct (Recorder.capturing s); [|(repeat split; assumption)].
    cbn. repeat split; auto. apply Forall_app. split; [exact Hs|].
    constructor; [exact Hc | constructor].
  - unfold Recorder.saveTimeout.
    destruct (Recorder.scheduled s) as [|c rest] eqn:Hsch;
      [rewrite ?Hsch; repeat split; assumption|].
    apply Forall_cons in Hs as [Hcl Hrest].
    unfold Recorder.handleSave.
    destruct (Recorder.seen_chunks c) as [|x xs] eqn:Hseen; cbn; [(repeat split; assumption)|].
    repeat split; auto.
    destruct (Recorder.seen_onUpload c); [|exact Hu].
    apply Forall_app. split; [exact Hu|]. constructor; [|constructor].
    unfold Recorder.file_ok, Recorder.recording. cbn. rewrite Hseen.
    split; [discriminate|]. split; [exact Hcl|]. eauto.
  - unfold Recorder.uploadDone. destruct (Recorder.awaiting s); cbn;
      repeat split; assumption || constructor.
Qed.

(** X17: the recorder never hands an empty recording to [onUpload].
    Every file it has uploaded holds at least one chunk, none of its chunks
    has size 0, and its name is the mode, "_recording_", the time of the
    save and ".webm"; the chunks held in the state have a size as well. *)
Theorem recorder_uploads_are_never_empty es :
  let s := Recorder.run es in
  Forall Recorder.file_ok (Recorder.uploads s) /\
  Forall Recorder.sized (Recorder.recordedChunks s).
Proof.
  intros s.
  assert (H : Recorder.chunks_ok s).
  { subst s. unfold Recorder.run.
    assert (H0 : Recorder.chunks_ok Recorder.initial) by (repeat split; constructor).
    revert H0. generalize Recorder.initial.
    induction es as [|e es IH]; intros s Hs; [exact Hs|].
    cbn [fold_left]. apply IH. by apply recorder_step_chunks. }
  destruct H as (Hc & _ & Hu). auto.
Qed.

Lemma data_events late s b :
  Recorder.mediaRecorder s = Some b ->
  let s' := fold_left Recorder.step (map Recorder.DataAvailable late) s in
  Recorder.recordedChunks s' =
    (Recorder.recordedChunks s
       ++ List.filter (fun d => (0 <? length d)%nat) late)%list /\
  Recorder.mediaRecorder s' = Some b /\
  Recorder.scheduled s' = Recorder.scheduled s /\
  Recorder.uploads s' = Recorder.uploads s /\
  Recorder.awaiting s' = Recorder.awaiting s /\
  Recorder.capturing s' = Recorder.capturing s.
Proof.
  revert s. induction late as [|d late IH]; intros s Hm s'; subst s'.
  - cbn. rewrite app_nil_r. by repeat split.
  - cbn [map fold_left List.filter].
    assert (Hstep : Recorder.step s (Recorder.DataAvailable d) =
                    if (0 <? length d)%nat
                    then Recorder.setRecordedChunks (Recorder.recordedChunks s ++ [d]) s
                    else s).
    { cbn [Recorder.step]. unfold Recorder.handleDataAvailable. by rewrite Hm. }
    rewrite Hstep. destruct (0 <? length d)%nat.
    + destruct (IH (Recorder.setRecordedChunks (Recorder.recordedChunks s ++ [d]) s) Hm)
        as (H1 & H2 & H3 & H4 & H5 & H6).
      cbn in H1. rewrite <- app_assoc in H1. cbn in H1. by repeat split.
    + exact (IH s Hm).
Qed.

(** X18: the save that follows "Stop & Analyze" uploads the chunks that
    were in the state when the button was clicked. Chunks that the media
    recorder hands over between the click and the save are added to the
    state but are not part of the upload, and when the upload settles they
    are discarded with the rest; if no chunk had arrived before the click,
    nothing is uploaded at all. *)
Theorem recorder_saves_the_chunks_of_the_click s mode late now url :
  Recorder.capturing s = true -> Recorder.mediaRecorder s = Some true ->
  Recorder.scheduled s = [] ->
  let clicked := Recorder.step s (Recorder.ClickStop mode true) in
  let waited := fold_left Recorder.step (map Recorder.DataAvailable late) clicked in
  let saved := Recorder.step waited (Recorder.SaveTimeout now url) in
  Recorder.recordedChunks waited =
    (Recorder.recordedChunks s
       ++ List.filter (fun d => (0 <? length d)%nat) late)%list /\
  Recorder.uploads saved =
    match Recorder.recordedChunks s with
    | [] => Recorder.uploads s
    | _ :: _ =>
        (Recorder.uploads s
           ++ [{| Recorder.file_name := mode ++ "_recording_" ++ pretty now ++ ".webm";
                  Recorder.file_chunks := Recorder.recordedChunks s |}])%list
    end /\
  (Recorder.recordedChunks s <> [] ->
   Recorder.recordedChunks (Recorder.step saved Recorder.UploadDone) = []).
Proof.
  intros Hcap Hm Hsch clicked waited saved.
  assert (Hclick : clicked =
            {| Recorder.capturing := false;
               Recorder.recordedChunks := Recorder.recordedChunks s;
               Recorder.videoUrl := Recorder.videoUrl s;
               Recorder.recordingTime := Recorder.recordingTime s;
               Recorder.isWebcamReady := Recorder.isWebcamReady s;
               Recorder.timer := false;
               Recorder.mediaRecorder := Some false;
               Recorder.scheduled :=
                 [{| Recorder.seen_chunks := Recorder.recordedChunks s;
                     Recorder.seen_mode := mode;
                     Recorder.seen_onUpload := true |}];
               Recorder.uploads := Recorder.uploads s;
               Recorder.awaiting := Recorder.awaiting s |}).
  { subst clicked. cbn [Recorder.step]. unfold Recorder.clickStop.
    rewrite Hcap. cbn. by rewrite Hm, Hsch. }
  destruct (data_events late clicked false) as (H1 & H2 & H3 & H4 & H5 & H6).
  { by rewrite Hclick. }
  fold waited in H1, H2, H3, H4, H5, H6.
  rewrite Hclick in H1, H3, H4, H5. cbn in H1, H3, H4, H5.
  split; [exact H1|].
  subst saved. cbn [Recorder.step]. unfold Recorder.saveTimeout. rewrite H3.
  unfold Recorder.handleSave. cbn [Recorder.seen_chunks Recorder.seen_onUpload].
  destruct (Recorder.recordedChunks s) as [|x xs] eqn:Hchunks.
  - split; [exact H4 | intros Hne; contradiction].
  - cbn. rewrite H4. split; [reflexivity|]. intros _.
    unfold Recorder.uploadDone. cbn. reflexivity.
Qed.

Lemma recorder_saves_the_chunks_of_the_click_witness :
  let saved :=
    Recorder.step
      (fold_left Recorder.step
         (map Recorder.DataAvailable [[Byte.x00; Byte.x01]; []; [Byte.x02]])
         (Recorder.step Scenarios.recording_recorder (Recorder.ClickStop "squat" true)))
      (Recorder.SaveTimeout 1700000000000%N "blob:2") in
  Recorder.uploads saved =
    [{| Recorder.file_name := "squat_recording_1700000000000.webm";
        Recorder.file_chunks := [Samples.jpeg] |}] /\
  Recorder.recordedChunks (Recorder.step saved Recorder.UploadDone) = [].
Proof.
  destruct (recorder_saves_the_chunks_of_the_click Scenarios.recording_recorder
              "squat" [[Byte.x00; Byte.x01]; []; [Byte.x02]] 1700000000000%N "blob:2"
              eq_refl eq_refl eq_refl) as (_ & Hup & Hdone).
  split; [exact Hup | apply Hdone; discriminate].
Defined.

Lemma formatTime_checked :
  forallb
    (fun n =>
       (String.length (Recorder.formatTime n) =? 5)%nat
       && match Recorder.read_time (Recorder.formatTime n) with
          | Some m => (m =? n)%nat
          | None => false
          end)
    (seq 0 (100 * 60)) = true.
Proof. vm_compute. reflexivity. Qed.

(** X19: for every time below 100 minutes [formatTime] shows five
    characters, two digits of minutes, a colon and two digits of seconds,
    from which the time can be read back; so two different times are never
    shown alike. *)
Theorem formatTime_reads_back seconds :
  seconds < 100 * 60 ->
  String.length (Recorder.formatTime seconds) = 5 /\
  Recorder.read_time (Recorder.formatTime seconds) = Some seconds.
Proof.
  intros Hlt. pose proof formatTime_checked as H.
  rewrite forallb_forall in H. specialize (H seconds).
  assert (Hin : In seconds (seq 0 (100 * 60))) by (apply in_seq; lia).
  apply H in Hin. apply andb_prop in Hin as [Hlen Hread].
  apply Nat.eqb_eq in Hlen. split; [exact Hlen|].
  destruct (Recorder.read_time (Recorder.formatTime seconds)) as [m|]; [|discriminate].
  apply Nat.eqb_eq in Hread. by subst.
Qed.

Lemma formatTime_reads_back_witness :
  String.length (Recorder.formatTime 754) = 5 /\
  Recorder.read_time (Recorder.formatTime 754) = Some 754.
Proof. exact (formatTime_reads_back 754 ltac:(lia)). Defined.

(** ** The results panel *)

(** X20: the result of a video analysis that the relay answers with
    success cannot be displayed. The page stores the body, which is the
    envelope of the relay, as [analysisResults]; the envelope has no
    [overall_analysis], so the live feedback is left as it was, and the
    results panel throws when it reads [overall_analysis.status]. A result
    whose [overall_analysis] is an object, as the engine sends it, is
    displayed with its status. *)
Theorem relay_video_result_breaks_the_panel B show s data props :
  isAnalyzing s = true ->
  let answer :=
    {| Relay.status := 200;
       body := Obj [("success", Bool true); ("flaskResponse", data)] |} in
  let s' := step B show s (UploadSettled (Display.fetch_settle answer)) in
  analysisResults s' = body answer /\
  isAnalyzing s' = false /\
  liveFeedback s' = liveFeedback s /\
  Display.panel s' = inl (undefined_property "status") /\
  Display.results_panel (Obj [("overall_analysis", Obj props)]) =
    inr {| Display.panel_score :=
             score_line (Some {| fb_status := JS.assoc "status" props;
                                 fb_details := JS.assoc "details" props;
                                 fb_score := JS.assoc "score" props |});
           Display.panel_badge :=
             if Display.is_string (JS.assoc "status" props) "Good Form"
                || Display.is_string (JS.assoc "status" props) "Good Posture"
             then Display.Green
             else if Display.is_string (JS.assoc "status" props) "Analysis Error"
                  then Display.Red
                  else Display.Yellow;
           Display.panel_status := JS.assoc "status" props |}.
Proof.
  intros Han answer s'.
  assert (Hhandle : handle B show (UploadSettled (Display.fetch_settle answer)) s =
                    setIsAnalyzing false (setAnalysisResults (body answer) s)).
  { cbn [handle]. unfold upload_settled. rewrite Han.
    unfold Display.fetch_settle, answer. cbn [Relay.status Relay.body].
    rewrite bool_decide_eq_true_2 by lia. reflexivity. }
  assert (Hres : analysisResults s' = body answer).
  { subst s'. unfold step.
    destruct (live_effect_upload s (handle B show (UploadSettled (Display.fetch_settle answer)) s))
      as (_ & ->).
    by rewrite Hhandle. }
  split; [exact Hres|]. split; [|split; [|split]].
  - subst s'. unfold step.
    destruct (live_effect_upload s (handle B show (UploadSettled (Display.fetch_settle answer)) s))
      as (-> & _).
    by rewrite Hhandle.
  - subst s'. unfold step.
    destruct (live_effect_fields s (handle B show (UploadSettled (Display.fetch_settle answer)) s))
      as (_ & _ & _ & -> & _).
    by rewrite Hhandle.
  - unfold Display.panel. rewrite Hres. reflexivity.
  - reflexivity.
Qed.

Lemma relay_video_result_breaks_the_panel_witness :
  Display.panel
    (run None Samples.show
       [ClickUploadTab; SelectVideo "squat.webm" Samples.jpeg "blob:1";
        UploadSettled
          (Display.fetch_settle
             {| Relay.status := 200;
                body := Obj [("success", Bool true);
                             ("flaskResponse", Samples.sample_report)] |})]) =
    inl (undefined_property "status").
Proof.
  exact (proj1 (proj2 (proj2 (proj2
           (relay_video_result_breaks_the_panel None Samples.show
              (run None Samples.show
                 [ClickUploadTab; SelectVideo "squat.webm" Samples.jpeg "blob:1"])
              Samples.sample_report [] eq_refl))))).
Defined.
